(** * Payroll Tracker

    A shallow embedding of the payroll application:
    - the PostgreSQL schema, column types and defaults, the [NOT NULL],
      [UNIQUE (employee_id, date)] and [REFERENCES] constraints, the
      [updated_at] trigger and the row-level security policies of the
      migration [20251122144613_239e301a-4800-4ac8-91f8-1cb7ef7eb94a.sql];
    - [calculateWage] and [markAsPaid] of [src/pages/Wages.tsx];
    - [handleSubmit] and [loadAttendance] of the attendance page;
    - [calculateStats] and [loadWages] of [src/pages/Reports.tsx];
    - [handleSubmit], [handleEdit] and [handleDelete] of
      [src/pages/Employees.tsx];
    - [checkUserRole] and the navigation of the layout.

    Numbers.  In a page an amount is a JavaScript number, an IEEE 754
    double ([float], with the operations of the kernel).  In the database
    it is a [DECIMAL(10, 2)] or [DECIMAL(5, 2)] value, held here as its
    number of hundredths.  [to_number] takes a stored value to the double
    the page receives, [to_decimal] takes a double of a request to the
    value the column stores, to [NULL], or to a numeric overflow.

    Storage.  A table is the list of its rows.  A request made through the
    Supabase client is evaluated on behalf of [auth.uid()] under the
    policies of the migration.  Identifiers and dates are taken as well
    formed; primary-key collisions of [gen_random_uuid()] and transport
    failures are not modelled. *)

From Stdlib Require Import ZArith PrimFloat.
From Stdlib Require FloatOps SpecFloat Uint63.
From stdpp Require Import base decidable numbers strings list gmap.
From stdpp Require Import sorting.

(** ** Column types *)

Abbreviation uuid := string (only parsing).
(** A JavaScript number. *)
Abbreviation number := float (only parsing).
(** A [DECIMAL(p, 2)] value: its number of hundredths. *)
Abbreviation decimal := Z (only parsing).
(** [DATE]: a day number. *)
Abbreviation date := Z (only parsing).
(** [TIMESTAMP WITH TIME ZONE]: an instant on the time line. *)
Abbreviation timestamptz := Z (only parsing).

(** [CREATE TYPE public.app_role AS ENUM ('admin', 'employee')] *)
Module AppRole.
Inductive t := admin | employee.

#[global] Instance eq_dec : EqDecision t.
Proof. solve_decision. Defined.
End AppRole.
Abbreviation app_role := AppRole.t (only parsing).

(** ** Numbers between the database and the pages *)

(** The double of an integer below [2 ^ 63] in size. *)
Definition number_of_Z (n : Z) : number :=
  match n with
  | Z0 => 0%float
  | Zpos _ => PrimFloat.of_uint63 (Uint63.of_Z n)
  | Zneg p => (- PrimFloat.of_uint63 (Uint63.of_Z (Zpos p)))%float
  end.

(** A [DECIMAL] value as a page receives it: the response carries the
    decimal numeral, and [JSON.parse] reads the double nearest to it.  The
    hundredths of a [DECIMAL(10, 2)] value are below [2 ^ 53], so their
    double is exact and the division rounds once. *)
Definition to_number (n : decimal) : number :=
  (number_of_Z n / 100)%float.

(** A nullable [DECIMAL] column where a page uses it as a number: [null]
    counts as 0 there, so [null > 0] is false. *)
Definition ToNumber (x : option decimal) : number :=
  match x with
  | Some n => to_number n
  | None => 0%float
  end.

(** What becomes of a number of a request in a [DECIMAL(p, 2)] column. *)
Inductive numeric_input :=
  | numeric_null
  | numeric_value (n : decimal)
  | numeric_overflow.

(** The integer nearest to [c * m * 2 ^ e], a half going up. *)
Definition nearest (c : Z) (m : positive) (e : Z) : Z :=
  if (0 <=? e)%Z then (c * Zpos m * 2 ^ e)%Z
  else ((2 * c * Zpos m + 2 ^ (- e)) / 2 ^ (1 - e))%Z.

(** [JSON.stringify] on the way out and the input of [DECIMAL(p, 2)] on
    the way in.  [NaN] and the infinities are written [null].  Any other
    double is written as the shortest decimal numeral that reads back as
    the same double, and the column rounds the numeral to two decimals, a
    half going away from zero; a result of [10 ^ (p - 2)] or more in size
    overflows.  When a numeral [k / 1000] reads back as the double it is
    that shortest numeral (below the overflow no other numeral of three
    decimals is as near), and its half is a true half.  Otherwise the
    numeral has more decimals, no half lies between it and the double, and
    rounding the numeral is rounding the double. *)
Definition to_decimal (precision : Z) (x : number) : numeric_input :=
  match FloatOps.Prim2SF x with
  | SpecFloat.S754_nan | SpecFloat.S754_infinity _ => numeric_null
  | SpecFloat.S754_zero _ => numeric_value 0
  | SpecFloat.S754_finite s m e =>
      if (10 ^ precision <? nearest 100 m e)%Z then numeric_overflow
      else
        let k := nearest 1000 m e in
        let hundredths :=
          if (number_of_Z k / 1000 =? PrimFloat.abs x)%float
          then ((k + 5) / 10)%Z
          else nearest 100 m e in
        if (10 ^ precision <=? hundredths)%Z then numeric_overflow
        else numeric_value (if s then (- hundredths)%Z else hundredths)
  end.

Definition overflows (i : numeric_input) : bool :=
  match i with
  | numeric_overflow => true
  | _ => false
  end.

Definition is_null (i : numeric_input) : bool :=
  match i with
  | numeric_null => true
  | _ => false
  end.

(** The content of a column that accepts [NULL]. *)
Definition nullable (i : numeric_input) : option decimal :=
  match i with
  | numeric_value n => Some n
  | _ => None
  end.

(** The content of a [NOT NULL] column, once the value has passed the
    constraint. *)
Definition not_null (i : numeric_input) : decimal :=
  match i with
  | numeric_value n => n
  | _ => 0%Z
  end.

(** ** Tables *)

Module UserRole.
Record row := mk {
  id : uuid;
  user_id : uuid;
  role : app_role;
  created_at : timestamptz;
}.

#[global] Instance row_eq_dec : EqDecision row.
Proof. solve_decision. Defined.
End UserRole.

Module Employee.
(** [CHECK (status IN ('active', 'inactive'))] *)
Inductive status_t := active | inactive.

(** [daily_wage], [overtime_rate] and [half_day_rate] are
    [DECIMAL(10, 2) NOT NULL]. *)
Record row := mk {
  id : uuid;
  user_id : option uuid;
  full_name : string;
  email : option string;
  phone : option string;
  daily_wage : decimal;
  overtime_rate : decimal;
  half_day_rate : decimal;
  status : status_t;
  created_at : timestamptz;
  updated_at : timestamptz;
}.

#[global] Instance status_eq_dec : EqDecision status_t.
Proof. solve_decision. Defined.
#[global] Instance row_eq_dec : EqDecision row.
Proof. solve_decision. Defined.
End Employee.

Module Attendance.
(** [CHECK (status IN ('present', 'absent', 'half_day'))] *)
Inductive status_t := present | absent | half_day.

(** [overtime_hours DECIMAL(5, 2) DEFAULT 0] and
    [advance_taken DECIMAL(10, 2) DEFAULT 0] accept [NULL]. *)
Record row := mk {
  id : uuid;
  employee_id : uuid;
  date : date;
  status : status_t;
  overtime_hours : option decimal;
  advance_taken : option decimal;
  notes : option string;
  created_at : timestamptz;
  updated_at : timestamptz;
}.

#[global] Instance status_eq_dec : EqDecision status_t.
Proof. solve_decision. Defined.
#[global] Instance row_eq_dec : EqDecision row.
Proof. solve_decision. Defined.
End Attendance.

Module Wage.
(** [CHECK (calculation_type IN ('daily', 'weekly', 'monthly'))] *)
Inductive calculation_type_t := daily | weekly | monthly.

(** [base_wage] and [total_wage] are [DECIMAL(10, 2) NOT NULL];
    [overtime_amount] and [advance_deductions] are
    [DECIMAL(10, 2) DEFAULT 0] and accept [NULL]. *)
Record row := mk {
  id : uuid;
  employee_id : uuid;
  period_start : date;
  period_end : date;
  calculation_type : calculation_type_t;
  base_wage : decimal;
  overtime_amount : option decimal;
  advance_deductions : option decimal;
  total_wage : decimal;
  paid : bool;
  paid_at : option timestamptz;
  created_at : timestamptz;
  updated_at : timestamptz;
}.

#[global] Instance calculation_type_eq_dec : EqDecision calculation_type_t.
Proof. solve_decision. Defined.
#[global] Instance row_eq_dec : EqDecision row.
Proof. solve_decision. Defined.
End Wage.

Record database := Database {
  user_roles : list UserRole.row;
  employees : list Employee.row;
  attendance : list Attendance.row;
  wages : list Wage.row;
}.

#[global] Instance database_eq_dec : EqDecision database.
Proof. solve_decision. Defined.

(** ** Row-level security *)

(** SQL [=] in a [WHERE] or [USING] clause: a comparison with [NULL] is
    not true. *)
Definition sql_eq (a b : option uuid) : bool :=
  match a, b with
  | Some x, Some y => bool_decide (x = y)
  | _, _ => false
  end.

(** [public.has_role(_user_id, _role)]; it is [SECURITY DEFINER], so it
    reads [user_roles] without the policies of the caller. *)
Definition has_role (db : database) (_user_id : option uuid) (_role : app_role) : bool :=
  existsb
    (λ r, sql_eq (Some (UserRole.user_id r)) _user_id
          && bool_decide (UserRole.role r = _role))
    (user_roles db).

Inductive command := SELECT | INSERT | UPDATE | DELETE.

#[global] Instance command_eq_dec : EqDecision command.
Proof. solve_decision. Defined.

(** One [CREATE POLICY]: its name, the command it is [FOR], and its
    [USING] / [WITH CHECK] expression, evaluated for [auth.uid()] on a row. *)
Record policy (R : Type) := Policy {
  policy_name : string;
  policy_for : command;
  policy_expr : database → option uuid → R → bool;
}.
Arguments Policy {R} _ _ _.
Arguments policy_name {R} _.
Arguments policy_for {R} _.
Arguments policy_expr {R} _ _ _ _.

Definition user_roles_policies : list (policy UserRole.row) := [
  Policy "Users can view their own roles" SELECT
    (λ _ uid r, sql_eq uid (Some (UserRole.user_id r)));
  Policy "Admins can view all roles" SELECT
    (λ db uid _, has_role db uid AppRole.admin)
].

Definition employees_policies : list (policy Employee.row) := [
  Policy "Admins can view all employees" SELECT
    (λ db uid _, has_role db uid AppRole.admin);
  Policy "Employees can view their own record" SELECT
    (λ _ uid e, sql_eq uid (Employee.user_id e));
  Policy "Admins can insert employees" INSERT
    (λ db uid _, has_role db uid AppRole.admin);
  Policy "Admins can update employees" UPDATE
    (λ db uid _, has_role db uid AppRole.admin);
  Policy "Admins can delete employees" DELETE
    (λ db uid _, has_role db uid AppRole.admin)
].

(** [EXISTS (SELECT 1 FROM public.employees
            WHERE employees.id = <employee_id>
              AND employees.user_id = auth.uid())] *)
Definition owns_employee (db : database) (uid : option uuid) (employee_id : uuid) : bool :=
  existsb
    (λ e, bool_decide (Employee.id e = employee_id)
          && sql_eq (Employee.user_id e) uid)
    (employees db).

Definition attendance_policies : list (policy Attendance.row) := [
  Policy "Admins can view all attendance" SELECT
    (λ db uid _, has_role db uid AppRole.admin);
  Policy "Employees can view their own attendance" SELECT
    (λ db uid a, owns_employee db uid (Attendance.employee_id a));
  Policy "Admins can insert attendance" INSERT
    (λ db uid _, has_role db uid AppRole.admin);
  Policy "Admins can update attendance" UPDATE
    (λ db uid _, has_role db uid AppRole.admin);
  Policy "Admins can delete attendance" DELETE
    (λ db uid _, has_role db uid AppRole.admin)
].

Definition wages_policies : list (policy Wage.row) := [
  Policy "Admins can view all wages" SELECT
    (λ db uid _, has_role db uid AppRole.admin);
  Policy "Employees can view their own wages" SELECT
    (λ db uid w, owns_employee db uid (Wage.employee_id w));
  Policy "Admins can insert wages" INSERT
    (λ db uid _, has_role db uid AppRole.admin);
  Policy "Admins can update wages" UPDATE
    (λ db uid _, has_role db uid AppRole.admin);
  Policy "Admins can delete wages" DELETE
    (λ db uid _, has_role db uid AppRole.admin)
].

(** Row-level security is enabled on every table and all policies are
    permissive: a command is let through on a row when some policy for that
    command accepts the row, and refused when there is none. *)
Definition permitted {R} (policies : list (policy R)) (c : command)
    (db : database) (uid : option uuid) (r : R) : bool :=
  existsb
    (λ p, bool_decide (policy_for p = c) && policy_expr p db uid r)
    policies.

(** ** Requests through the Supabase client *)

(** The [error] of a response. *)
Record PostgrestError := {
  code : string;
  message : string;
}.

#[global] Instance PostgrestError_eq_dec : EqDecision PostgrestError.
Proof. solve_decision. Defined.

(** A name as PostgreSQL writes it in a message, between double quotes. *)
Definition quoted (name : string) : string :=
  String (Ascii.ascii_of_nat 34) (name +:+ String (Ascii.ascii_of_nat 34) EmptyString).

(** SQLSTATE 22003, raised when a value does not fit its [DECIMAL]
    column. *)
Definition numeric_field_overflow : PostgrestError :=
  {| code := "22003"; message := "numeric field overflow" |}.

(** SQLSTATE 42501, raised when a [WITH CHECK] expression refuses a row. *)
Definition rls_violation (table : string) : PostgrestError :=
  {| code := "42501";
     message :=
       "new row violates row-level security policy for table " +:+ quoted table |}.

(** SQLSTATE 23502, raised by a [NOT NULL] constraint. *)
Definition not_null_violation (column table : string) : PostgrestError :=
  {| code := "23502";
     message :=
       "null value in column " +:+ quoted column +:+ " of relation "
       +:+ quoted table +:+ " violates not-null constraint" |}.

(** SQLSTATE 23505, raised by a [UNIQUE] constraint. *)
Definition unique_violation (constraint : string) : PostgrestError :=
  {| code := "23505";
     message :=
       "duplicate key value violates unique constraint " +:+ quoted constraint |}.

(** SQLSTATE 23503, raised by a [REFERENCES] constraint. *)
Definition foreign_key_violation (table constraint : string) : PostgrestError :=
  {| code := "23503";
     message :=
       "insert or update on table " +:+ quoted table
       +:+ " violates foreign key constraint " +:+ quoted constraint |}.

(** The values of [supabase.from("wages").insert([...])] in [calculateWage]. *)
Module WageInsert.
Record t := mk {
  employee_id : uuid;
  period_start : date;
  period_end : date;
  calculation_type : Wage.calculation_type_t;
  base_wage : number;
  overtime_amount : number;
  advance_deductions : number;
  total_wage : number;
}.
End WageInsert.

(** The values of [supabase.from("attendance").insert([attendanceData])]. *)
Module AttendanceInsert.
Record t := mk {
  employee_id : uuid;
  date : date;
  status : Attendance.status_t;
  overtime_hours : number;
  advance_taken : number;
  notes : option string;
}.
End AttendanceInsert.

(** The row an insert into [wages] builds: each amount goes into its
    [DECIMAL(10, 2)] column by itself; [id], [paid], [paid_at],
    [created_at] and [updated_at] take their column defaults. *)
Definition new_wage (now : timestamptz) (gen_random_uuid : uuid)
    (v : WageInsert.t) : Wage.row :=
  {| Wage.id := gen_random_uuid;
     Wage.employee_id := WageInsert.employee_id v;
     Wage.period_start := WageInsert.period_start v;
     Wage.period_end := WageInsert.period_end v;
     Wage.calculation_type := WageInsert.calculation_type v;
     Wage.base_wage := not_null (to_decimal 10 (WageInsert.base_wage v));
     Wage.overtime_amount := nullable (to_decimal 10 (WageInsert.overtime_amount v));
     Wage.advance_deductions :=
       nullable (to_decimal 10 (WageInsert.advance_deductions v));
     Wage.total_wage := not_null (to_decimal 10 (WageInsert.total_wage v));
     Wage.paid := false;
     Wage.paid_at := None;
     Wage.created_at := now;
     Wage.updated_at := now |}.

(** The row an insert into [attendance] builds.  The request names both
    number columns, so a [null] in it is stored as [NULL], not as the
    default. *)
Definition new_attendance (now : timestamptz) (gen_random_uuid : uuid)
    (v : AttendanceInsert.t) : Attendance.row :=
  {| Attendance.id := gen_random_uuid;
     Attendance.employee_id := AttendanceInsert.employee_id v;
     Attendance.date := AttendanceInsert.date v;
     Attendance.status := AttendanceInsert.status v;
     Attendance.overtime_hours :=
       nullable (to_decimal 5 (AttendanceInsert.overtime_hours v));
     Attendance.advance_taken :=
       nullable (to_decimal 10 (AttendanceInsert.advance_taken v));
     Attendance.notes := AttendanceInsert.notes v;
     Attendance.created_at := now;
     Attendance.updated_at := now |}.

Definition with_wages (db : database) (ws : list Wage.row) : database :=
  {| user_roles := user_roles db; employees := employees db;
     attendance := attendance db; wages := ws |}.

Definition with_attendance (db : database) (rows : list Attendance.row) : database :=
  {| user_roles := user_roles db; employees := employees db;
     attendance := rows; wages := wages db |}.

(** [REFERENCES public.employees(id)]: the check reads the whole table,
    whatever the policies of the caller. *)
Definition employee_exists (db : database) (employee_id : uuid) : bool :=
  existsb (λ e, bool_decide (Employee.id e = employee_id)) (employees db).

(** [supabase.from("wages").insert([v])].  The values are brought to the
    types of their columns first, then the [WITH CHECK] expression is
    evaluated on the row, then the [NOT NULL] constraints, and the foreign
    key at the end of the statement. *)
Definition insert_wages (uid : option uuid) (now : timestamptz)
    (gen_random_uuid : uuid) (v : WageInsert.t) (db : database)
    : PostgrestError + database :=
  let new := new_wage now gen_random_uuid v in
  if overflows (to_decimal 10 (WageInsert.base_wage v))
     || overflows (to_decimal 10 (WageInsert.overtime_amount v))
     || overflows (to_decimal 10 (WageInsert.advance_deductions v))
     || overflows (to_decimal 10 (WageInsert.total_wage v))
  then inl numeric_field_overflow
  else if negb (permitted wages_policies INSERT db uid new)
  then inl (rls_violation "wages")
  else if is_null (to_decimal 10 (WageInsert.base_wage v))
  then inl (not_null_violation "base_wage" "wages")
  else if is_null (to_decimal 10 (WageInsert.total_wage v))
  then inl (not_null_violation "total_wage" "wages")
  else if negb (employee_exists db (WageInsert.employee_id v))
  then inl (foreign_key_violation "wages" "wages_employee_id_fkey")
  else inr (with_wages db (wages db ++ [new])).

(** [UNIQUE (employee_id, date)] *)
Definition attendance_conflict (new : Attendance.row) (rows : list Attendance.row) : bool :=
  existsb
    (λ a, bool_decide (Attendance.employee_id a = Attendance.employee_id new)
          && bool_decide (Attendance.date a = Attendance.date new))
    rows.

(** [supabase.from("attendance").insert([v])]: the values are brought to
    the types of their columns, the [WITH CHECK] expression is evaluated,
    the row reaches the unique index, and the foreign key is checked at the
    end of the statement. *)
Definition insert_attendance (uid : option uuid) (now : timestamptz)
    (gen_random_uuid : uuid) (v : AttendanceInsert.t) (db : database)
    : PostgrestError + database :=
  let new := new_attendance now gen_random_uuid v in
  if overflows (to_decimal 5 (AttendanceInsert.overtime_hours v))
     || overflows (to_decimal 10 (AttendanceInsert.advance_taken v))
  then inl numeric_field_overflow
  else if negb (permitted attendance_policies INSERT db uid new)
  then inl (rls_violation "attendance")
  else if attendance_conflict new (attendance db)
  then inl (unique_violation "attendance_employee_id_date_key")
  else if negb (employee_exists db (AttendanceInsert.employee_id v))
  then inl (foreign_key_violation "attendance" "attendance_employee_id_fkey")
  else inr (with_attendance db (attendance db ++ [new])).

(** [supabase.from("attendance").select("*")] with the filters [where_]:
    the rows the [SELECT] policies show to [uid], in table order. *)
Definition select_attendance (uid : option uuid)
    (where_ : Attendance.row → bool) (db : database)
    : PostgrestError + list Attendance.row :=
  inr (filter
         (λ a, permitted attendance_policies SELECT db uid a && where_ a)
         (attendance db)).

(** [public.update_updated_at_column()], the [BEFORE UPDATE] trigger
    [update_wages_updated_at]. *)
Definition update_updated_at_column (now : timestamptz) (NEW : Wage.row) : Wage.row :=
  {| Wage.id := Wage.id NEW;
     Wage.employee_id := Wage.employee_id NEW;
     Wage.period_start := Wage.period_start NEW;
     Wage.period_end := Wage.period_end NEW;
     Wage.calculation_type := Wage.calculation_type NEW;
     Wage.base_wage := Wage.base_wage NEW;
     Wage.overtime_amount := Wage.overtime_amount NEW;
     Wage.advance_deductions := Wage.advance_deductions NEW;
     Wage.total_wage := Wage.total_wage NEW;
     Wage.paid := Wage.paid NEW;
     Wage.paid_at := Wage.paid_at NEW;
     Wage.created_at := Wage.created_at NEW;
     Wage.updated_at := now |}.

(** The rows an [UPDATE ... WHERE where_] of [uid] reaches: those its
    [SELECT] and [UPDATE] policies accept. *)
Definition update_target (uid : option uuid) (where_ : Wage.row → bool)
    (db : database) (w : Wage.row) : bool :=
  permitted wages_policies SELECT db uid w
  && permitted wages_policies UPDATE db uid w
  && where_ w.

(** [supabase.from("wages").update(set)] with the filters [where_].  A row
    out of reach is left as it is, without an error; the new version of a
    row must pass the [UPDATE] policy again. *)
Definition update_wages (uid : option uuid) (now : timestamptz)
    (set : Wage.row → Wage.row) (where_ : Wage.row → bool) (db : database)
    : PostgrestError + database :=
  let new w := update_updated_at_column now (set w) in
  if forallb
       (λ w, negb (update_target uid where_ db w)
             || permitted wages_policies UPDATE db uid (new w))
       (wages db)
  then inr (with_wages db
              ((λ w, if update_target uid where_ db w then new w else w)
                 <$> wages db))
  else inl (rls_violation "wages").

(** [sonner]'s [toast.error] and [toast.success]. *)
Inductive toast :=
  | toast_error (msg : string)
  | toast_success (msg : string).

#[global] Instance toast_eq_dec : EqDecision toast.
Proof. solve_decision. Defined.

(** JavaScript's [s || fallback] on strings. *)
Definition or_else (s fallback : string) : string :=
  if decide (s = "") then fallback else s.


(** ** [src/pages/Wages.tsx] *)

Module WagesPage.

(** The [formData] state of the page. *)
Record formData_t := mkForm {
  employee_id : uuid;
  period_start : date;
  period_end : date;
  calculation_type : Wage.calculation_type_t;
}.

(** What the [try] block can throw: [new Error(msg)], or the [error] of a
    response.  Both carry a [message]. *)
Inductive thrown :=
  | Error (msg : string)
  | Response (e : PostgrestError).

Definition thrown_message (t : thrown) : string :=
  match t with
  | Error msg => msg
  | Response e => message e
  end.

(** The three accumulators [baseWage], [overtimeAmount] and
    [advanceDeductions]. *)
Record totals := mkTotals {
  baseWage : number;
  overtimeAmount : number;
  advanceDeductions : number;
}.

(** The body of [attendanceData?.forEach((att) => { ... })]; [employee]
    is a row of the [employees] state and [att] a row of the response, so
    their amounts are the doubles [JSON.parse] read. *)
Definition forEach_body (employee : Employee.row) (acc : totals)
    (att : Attendance.row) : totals :=
  let baseWage :=
    match Attendance.status att with
    | Attendance.present =>
        (baseWage acc + to_number (Employee.daily_wage employee))%float
    | Attendance.half_day =>
        (baseWage acc + to_number (Employee.half_day_rate employee))%float
    | Attendance.absent => baseWage acc
    end in
  let overtimeAmount :=
    if (0 <? ToNumber (Attendance.overtime_hours att))%float
    then (overtimeAmount acc
          + ToNumber (Attendance.overtime_hours att)
            * to_number (Employee.overtime_rate employee))%float
    else overtimeAmount acc in
  let advanceDeductions :=
    if (0 <? ToNumber (Attendance.advance_taken att))%float
    then (advanceDeductions acc + ToNumber (Attendance.advance_taken att))%float
    else advanceDeductions acc in
  mkTotals baseWage overtimeAmount advanceDeductions.

Definition accumulate (employee : Employee.row)
    (attendanceData : list Attendance.row) : totals :=
  foldl (forEach_body employee) (mkTotals 0 0 0) attendanceData.

(** [totalWage] and the object handed to [insert]. *)
Definition wage_values (formData : formData_t) (t : totals) : WageInsert.t :=
  let totalWage := (baseWage t + overtimeAmount t - advanceDeductions t)%float in
  {| WageInsert.employee_id := employee_id formData;
     WageInsert.period_start := period_start formData;
     WageInsert.period_end := period_end formData;
     WageInsert.calculation_type := calculation_type formData;
     WageInsert.base_wage := baseWage t;
     WageInsert.overtime_amount := overtimeAmount t;
     WageInsert.advance_deductions := advanceDeductions t;
     WageInsert.total_wage := totalWage |}.

(** The attendance query of [calculateWage]:
    [.eq("employee_id", ...).gte("date", period_start).lte("date", period_end)]. *)
Definition in_period (formData : formData_t) (a : Attendance.row) : bool :=
  bool_decide (Attendance.employee_id a = employee_id formData)
  && bool_decide (period_start formData ≤ Attendance.date a)%Z
  && bool_decide (Attendance.date a ≤ period_end formData)%Z.

(** The [try] block of [calculateWage]. *)
Definition calculateWage_try (employees : list Employee.row)
    (formData : formData_t) (uid : option uuid) (now : timestamptz)
    (gen_random_uuid : uuid) (db : database) : thrown + database :=
  match find (λ e, bool_decide (Employee.id e = employee_id formData)) employees with
  | None => inl (Error "Employee not found")
  | Some employee =>
      match select_attendance uid (in_period formData) db with
      | inl attError => inl (Response attError)
      | inr attendanceData =>
          let t := accumulate employee attendanceData in
          match insert_wages uid now gen_random_uuid (wage_values formData t) db with
          | inl insertError => inl (Response insertError)
          | inr db' => inr db'
          end
      end
  end.

(** [calculateWage]: [employees] and [formData] are the state of the page,
    [uid] the signed-in user; the result is the database after the call
    and the toast shown.  What the handler does to the state of the page
    afterwards ([setOpen], [loadWages], [resetForm], [setCalculating]) is
    left out. *)
Definition calculateWage (employees : list Employee.row)
    (formData : formData_t) (uid : option uuid) (now : timestamptz)
    (gen_random_uuid : uuid) (db : database) : database * toast :=
  match calculateWage_try employees formData uid now gen_random_uuid db with
  | inr db' => (db', toast_success "Wage calculated successfully")
  | inl error =>
      (db, toast_error (or_else (thrown_message error) "Error calculating wage"))
  end.

(** [{ paid: true, paid_at: new Date().toISOString() }] *)
Definition set_paid (new_Date : timestamptz) (w : Wage.row) : Wage.row :=
  {| Wage.id := Wage.id w;
     Wage.employee_id := Wage.employee_id w;
     Wage.period_start := Wage.period_start w;
     Wage.period_end := Wage.period_end w;
     Wage.calculation_type := Wage.calculation_type w;
     Wage.base_wage := Wage.base_wage w;
     Wage.overtime_amount := Wage.overtime_amount w;
     Wage.advance_deductions := Wage.advance_deductions w;
     Wage.total_wage := Wage.total_wage w;
     Wage.paid := true;
     Wage.paid_at := Some new_Date;
     Wage.created_at := Wage.created_at w;
     Wage.updated_at := Wage.updated_at w |}.

(** [{!wage.paid && (<Button onClick={() => markAsPaid(wage.id)} ...>)}]:
    the row of a wage record has its "Mark Paid" button only while the
    record is unpaid. *)
Definition shows_mark_paid (wage : Wage.row) : bool := negb (Wage.paid wage).

(** [markAsPaid(id)]: [new_Date] is the clock of the browser, [now] the
    clock of the database. *)
Definition markAsPaid (id : uuid) (uid : option uuid)
    (new_Date now : timestamptz) (db : database) : database * toast :=
  match update_wages uid now (set_paid new_Date)
          (λ w, bool_decide (Wage.id w = id)) db with
  | inl error => (db, toast_error "Error marking as paid")
  | inr db' => (db', toast_success "Marked as paid")
  end.

End WagesPage.

(** ** The attendance page *)

Module AttendancePage.

(** The [formData] state of the page; the two number inputs are held
    here by the value [parseFloat] reads from them, [NaN] when the input
    is empty. *)
Record formData_t := mkForm {
  employee_id : uuid;
  date : date;
  status : Attendance.status_t;
  overtime_hours : number;
  advance_taken : number;
  notes : string;
}.

Definition attendanceData (formData : formData_t) : AttendanceInsert.t :=
  {| AttendanceInsert.employee_id := employee_id formData;
     AttendanceInsert.date := date formData;
     AttendanceInsert.status := status formData;
     AttendanceInsert.overtime_hours := overtime_hours formData;
     AttendanceInsert.advance_taken := advance_taken formData;
     AttendanceInsert.notes :=
       if decide (notes formData = "") then None else Some (notes formData) |}.

(** [handleSubmit]: the result is the database after the call and the
    toast shown; closing the dialog, reloading and resetting the form are
    left out. *)
Definition handleSubmit (formData : formData_t) (uid : option uuid)
    (now : timestamptz) (gen_random_uuid : uuid) (db : database)
    : database * toast :=
  match insert_attendance uid now gen_random_uuid (attendanceData formData) db with
  | inl error =>
      if decide (code error = "23505")
      then (db, toast_error "Attendance already marked for this employee on this date")
      else (db, toast_error "Error marking attendance")
  | inr db' => (db', toast_success "Attendance marked successfully")
  end.

End AttendancePage.

(** ** [src/pages/Reports.tsx] *)

Module ReportsPage.

Record stats_t := mkStats {
  totalPaid : number;
  totalPending : number;
  employeesPaid : nat;
  averageWage : number;
}.

(** [rows.reduce((sum, w) => sum + Number(w.total_wage), 0)] *)
Definition reduce_total (rows : list Wage.row) : number :=
  foldl (λ sum w, (sum + to_number (Wage.total_wage w))%float) 0%float rows.

(** [calculateStats]: the value handed to [setStats]. *)
Definition calculateStats (wageData : list Wage.row) : stats_t :=
  let paid := filter (λ w, Wage.paid w) wageData in
  let pending := filter (λ w, negb (Wage.paid w)) wageData in
  let totalPaid := reduce_total paid in
  let totalPending := reduce_total pending in
  let uniqueEmployees :=
    size (list_to_set (Wage.employee_id <$> paid) : gset uuid) in
  let averageWage :=
    if (0 <? length paid)%nat
    then (totalPaid / number_of_Z (Z.of_nat (length paid)))%float
    else 0%float in
  mkStats totalPaid totalPending uniqueEmployees averageWage.

End ReportsPage.

(** ** Sums, as the specification words them *)

(** The sum of [f] over the records of [l], taken from the first record
    to the last in the arithmetic of doubles. *)
Definition sum_in_order {A} (f : A → number) (l : list A) : number :=
  foldl (λ s x, (s + f x)%float) 0%float l.

(** What a day that is not an absence adds to the base wage. *)
Definition status_pay (employee : Employee.row) (s : Attendance.status_t) : number :=
  match s with
  | Attendance.present => to_number (Employee.daily_wage employee)
  | Attendance.half_day => to_number (Employee.half_day_rate employee)
  | Attendance.absent => 0%float
  end.

(** The records the three sums of the loop run over. *)
Definition worked (a : Attendance.row) : bool :=
  negb (bool_decide (Attendance.status a = Attendance.absent)).

Definition has_overtime (a : Attendance.row) : bool :=
  (0 <? ToNumber (Attendance.overtime_hours a))%float.

Definition has_advance (a : Attendance.row) : bool :=
  (0 <? ToNumber (Attendance.advance_taken a))%float.

(** The rows [calculateWage] reads. *)
Definition fetched (formData : WagesPage.formData_t) (uid : option uuid)
    (db : database) : list Attendance.row :=
  filter
    (λ a, permitted attendance_policies SELECT db uid a
          && WagesPage.in_period formData a)
    (attendance db).

(** The record a period without attendance gives. *)
Definition zero_wage (formData : WagesPage.formData_t) (now : timestamptz)
    (gen_random_uuid : uuid) : Wage.row :=
  {| Wage.id := gen_random_uuid;
     Wage.employee_id := WagesPage.employee_id formData;
     Wage.period_start := WagesPage.period_start formData;
     Wage.period_end := WagesPage.period_end formData;
     Wage.calculation_type := WagesPage.calculation_type formData;
     Wage.base_wage := 0;
     Wage.overtime_amount := Some 0%Z;
     Wage.advance_deductions := Some 0%Z;
     Wage.total_wage := 0;
     Wage.paid := false;
     Wage.paid_at := None;
     Wage.created_at := now;
     Wage.updated_at := now |}.

(** The principal [uid] is the one linked to the employee row [e]. *)
Definition owns (uid : option uuid) (e : Employee.row) : Prop :=
  ∃ u, uid = Some u ∧ Employee.user_id e = Some u.

(** Each amount of the request fits its [DECIMAL(10, 2)] column. *)
Definition wage_fits (v : WageInsert.t) : Prop :=
  overflows (to_decimal 10 (WageInsert.base_wage v)) = false
  ∧ overflows (to_decimal 10 (WageInsert.overtime_amount v)) = false
  ∧ overflows (to_decimal 10 (WageInsert.advance_deductions v)) = false
  ∧ overflows (to_decimal 10 (WageInsert.total_wage v)) = false.

(** The overtime hours and the advance of the form fit their columns,
    [DECIMAL(5, 2)] and [DECIMAL(10, 2)]. *)
Definition attendance_fits (formData : AttendancePage.formData_t) : Prop :=
  overflows (to_decimal 5 (AttendancePage.overtime_hours formData)) = false
  ∧ overflows (to_decimal 10 (AttendancePage.advance_taken formData)) = false.

(** ** Sample data *)

Module Sample.

(** A whole amount, in hundredths. *)
Definition q (z : Z) : decimal := (100 * z)%Z.

Definition boss : uuid := "u-boss".
Definition asha : uuid := "u-asha".

Definition roles : list UserRole.row :=
  [UserRole.mk "r1" boss AppRole.admin 0; UserRole.mk "r2" asha AppRole.employee 0].

(** [daily_wage=500, overtime_rate=50, half_day_rate=250] *)
Definition e1 : Employee.row :=
  Employee.mk "e1" (Some asha) "Asha" None None (q 500) (q 50) (q 250)
    Employee.active 0 0.

Definition e2 : Employee.row :=
  Employee.mk "e2" None "Ravi" None None (q 400) (q 40) (q 200)
    Employee.active 0 0.

(** present (0 OT, 0 adv), half_day (2 OT, 0 adv), absent (0 OT, 100 adv) *)
Definition a1 : Attendance.row :=
  Attendance.mk "a1" "e1" 10 Attendance.present (Some (q 0)) (Some (q 0)) None 1 1.
Definition a2 : Attendance.row :=
  Attendance.mk "a2" "e1" 11 Attendance.half_day (Some (q 2)) (Some (q 0)) None 2 2.
Definition a3 : Attendance.row :=
  Attendance.mk "a3" "e1" 12 Attendance.absent (Some (q 0)) (Some (q 100)) None 3 3.
(** an absent day of the other employee, with an advance *)
Definition a4 : Attendance.row :=
  Attendance.mk "a4" "e2" 10 Attendance.absent (Some (q 0)) (Some (q 100)) None 4 4.

Definition w1 : Wage.row :=
  Wage.mk "w1" "e1" 10 12 Wage.weekly (q 750) (Some (q 100)) (Some (q 100)) (q 750)
    false None 5 5.
Definition w2 : Wage.row :=
  Wage.mk "w2" "e2" 10 12 Wage.weekly (q 400) (Some (q 0)) (Some (q 0)) (q 400)
    true (Some 6%Z) 5 6.

Definition db0 : database :=
  Database roles [e1; e2] [a1; a2; a3; a4] [w1; w2].

(** An employee paid 33.33 an hour of overtime, absent on day 10 with
    half an hour of overtime and an advance of 100. *)
Definition e3 : Employee.row :=
  Employee.mk "e3" None "Mina" None None (q 400) 3333 (q 200)
    Employee.active 0 0.
Definition a5 : Attendance.row :=
  Attendance.mk "a5" "e3" 10 Attendance.absent (Some 50%Z) (Some (q 100)) None 4 4.

Definition db1 : database :=
  Database roles [e1; e2; e3] [a1; a2; a3; a4; a5] [w1; w2].

(** An employee paid 99999999.99 a day, present on days 10 and 11. *)
Definition e4 : Employee.row :=
  Employee.mk "e4" None "Lata" None None 9999999999 (q 50) (q 250)
    Employee.active 0 0.
Definition a6 : Attendance.row :=
  Attendance.mk "a6" "e4" 10 Attendance.present (Some 0%Z) (Some 0%Z) None 4 4.
Definition a7 : Attendance.row :=
  Attendance.mk "a7" "e4" 11 Attendance.present (Some 0%Z) (Some 0%Z) None 5 5.

Definition db2 : database :=
  Database roles [e1; e2; e4] [a1; a2; a3; a4; a6; a7] [w1; w2].

(** Three paid wage records of 0.10, 0.20 and 0.30. *)
Definition p1 : Wage.row :=
  Wage.mk "p1" "e1" 1 1 Wage.daily 10 (Some 0%Z) (Some 0%Z) 10 true (Some 2%Z) 1 2.
Definition p2 : Wage.row :=
  Wage.mk "p2" "e1" 2 2 Wage.daily 20 (Some 0%Z) (Some 0%Z) 20 true (Some 3%Z) 2 3.
Definition p3 : Wage.row :=
  Wage.mk "p3" "e1" 3 3 Wage.daily 30 (Some 0%Z) (Some 0%Z) 30 true (Some 4%Z) 3 4.

End Sample.

(** ** Invariants of the tables *)

(** [UNIQUE (employee_id, date)] as a property of the attendance table. *)
Definition attendance_unique (db : database) : Prop :=
  NoDup ((λ a, (Attendance.employee_id a, Attendance.date a)) <$> attendance db).

(** [paid_at] is filled in exactly on the paid wage records. *)
Definition paid_at_recorded (db : database) : Prop :=
  ∀ w, w ∈ wages db → Wage.paid w = true ↔ is_Some (Wage.paid_at w).

(** ** Requests of the employees page *)

(** The object [employeeData] of [handleSubmit]; the three amounts are
    what [parseFloat] gave. *)
Module EmployeeValues.
Record t := mk {
  full_name : string;
  email : option string;
  phone : option string;
  daily_wage : number;
  overtime_rate : number;
  half_day_rate : number;
}.
End EmployeeValues.

(** The row an insert into [employees] builds: [id], [user_id], [status],
    [created_at] and [updated_at] take their column defaults, a generated
    id, [NULL], ['active'] and [now()]. *)
Definition new_employee (now : timestamptz) (gen_random_uuid : uuid)
    (v : EmployeeValues.t) : Employee.row :=
  {| Employee.id := gen_random_uuid;
     Employee.user_id := None;
     Employee.full_name := EmployeeValues.full_name v;
     Employee.email := EmployeeValues.email v;
     Employee.phone := EmployeeValues.phone v;
     Employee.daily_wage := not_null (to_decimal 10 (EmployeeValues.daily_wage v));
     Employee.overtime_rate :=
       not_null (to_decimal 10 (EmployeeValues.overtime_rate v));
     Employee.half_day_rate :=
       not_null (to_decimal 10 (EmployeeValues.half_day_rate v));
     Employee.status := Employee.active;
     Employee.created_at := now;
     Employee.updated_at := now |}.

(** [.update(employeeData)] followed by the [BEFORE UPDATE] trigger
    [update_employees_updated_at]. *)
Definition updated_employee (now : timestamptz) (v : EmployeeValues.t)
    (e : Employee.row) : Employee.row :=
  {| Employee.id := Employee.id e;
     Employee.user_id := Employee.user_id e;
     Employee.full_name := EmployeeValues.full_name v;
     Employee.email := EmployeeValues.email v;
     Employee.phone := EmployeeValues.phone v;
     Employee.daily_wage := not_null (to_decimal 10 (EmployeeValues.daily_wage v));
     Employee.overtime_rate :=
       not_null (to_decimal 10 (EmployeeValues.overtime_rate v));
     Employee.half_day_rate :=
       not_null (to_decimal 10 (EmployeeValues.half_day_rate v));
     Employee.status := Employee.status e;
     Employee.created_at := Employee.created_at e;
     Employee.updated_at := now |}.

Definition with_employees (db : database) (rows : list Employee.row) : database :=
  {| user_roles := user_roles db; employees := rows;
     attendance := attendance db; wages := wages db |}.

(** One of the three amounts does not fit its [DECIMAL(10, 2)] column. *)
Definition employee_overflows (v : EmployeeValues.t) : bool :=
  overflows (to_decimal 10 (EmployeeValues.daily_wage v))
  || overflows (to_decimal 10 (EmployeeValues.overtime_rate v))
  || overflows (to_decimal 10 (EmployeeValues.half_day_rate v)).

(** The first of the three [NOT NULL] amounts that is [null], if any. *)
Definition employee_null (v : EmployeeValues.t) : option string :=
  if is_null (to_decimal 10 (EmployeeValues.daily_wage v)) then Some "daily_wage"
  else if is_null (to_decimal 10 (EmployeeValues.overtime_rate v))
  then Some "overtime_rate"
  else if is_null (to_decimal 10 (EmployeeValues.half_day_rate v))
  then Some "half_day_rate"
  else None.

(** [supabase.from("employees").insert([v])] *)
Definition insert_employees (uid : option uuid) (now : timestamptz)
    (gen_random_uuid : uuid) (v : EmployeeValues.t) (db : database)
    : PostgrestError + database :=
  let new := new_employee now gen_random_uuid v in
  if employee_overflows v then inl numeric_field_overflow
  else if negb (permitted employees_policies INSERT db uid new)
  then inl (rls_violation "employees")
  else
    match employee_null v with
    | Some column => inl (not_null_violation column "employees")
    | None => inr (with_employees db (employees db ++ [new]))
    end.

(** The rows an [UPDATE] or [DELETE] of [uid] with the filters [where_]
    reaches: those its [SELECT] policies and its policies for the command
    accept. *)
Definition employees_target (c : command) (uid : option uuid)
    (where_ : Employee.row → bool) (db : database) (e : Employee.row) : bool :=
  permitted employees_policies SELECT db uid e
  && permitted employees_policies c db uid e
  && where_ e.

(** [supabase.from("employees").update(v)] with the filters [where_].  The
    values of the request are brought to the types of their columns before
    any row is looked at; the new version of a row that is reached must
    pass the [UPDATE] policy and the [NOT NULL] constraints. *)
Definition update_employees (uid : option uuid) (now : timestamptz)
    (v : EmployeeValues.t) (where_ : Employee.row → bool) (db : database)
    : PostgrestError + database :=
  if employee_overflows v then inl numeric_field_overflow
  else if negb (forallb
                  (λ e, negb (employees_target UPDATE uid where_ db e)
                        || permitted employees_policies UPDATE db uid
                             (updated_employee now v e))
                  (employees db))
  then inl (rls_violation "employees")
  else
    match employee_null v with
    | Some column =>
        if existsb (employees_target UPDATE uid where_ db) (employees db)
        then inl (not_null_violation column "employees")
        else inr db
    | None =>
        inr (with_employees db
               ((λ e, if employees_target UPDATE uid where_ db e
                      then updated_employee now v e else e)
                  <$> employees db))
    end.

(** [supabase.from("employees").delete()] with the filters [where_].  The
    attendance and the wages of a deleted employee go with it
    ([REFERENCES public.employees(id) ON DELETE CASCADE]), whatever the
    policies of those tables say. *)
Definition delete_employees (uid : option uuid)
    (where_ : Employee.row → bool) (db : database)
    : PostgrestError + database :=
  let gone := filter (λ e, employees_target DELETE uid where_ db e) (employees db) in
  let ids := Employee.id <$> gone in
  inr {| user_roles := user_roles db;
         employees :=
           filter (λ e, negb (employees_target DELETE uid where_ db e))
             (employees db);
         attendance :=
           filter (λ a, Attendance.employee_id a ∉ ids) (attendance db);
         wages := filter (λ w, Wage.employee_id w ∉ ids) (wages db) |}.

(** ** [src/pages/Employees.tsx] *)

Module EmployeesPage.

(** The [formData] state of the page; the three number inputs are held
    here by the value [parseFloat] reads from them. *)
Record formData_t := mkForm {
  full_name : string;
  email : string;
  phone : string;
  daily_wage : number;
  overtime_rate : number;
  half_day_rate : number;
}.

Definition employeeData (formData : formData_t) : EmployeeValues.t :=
  {| EmployeeValues.full_name := full_name formData;
     EmployeeValues.email :=
       if decide (email formData = "") then None else Some (email formData);
     EmployeeValues.phone :=
       if decide (phone formData = "") then None else Some (phone formData);
     EmployeeValues.daily_wage := daily_wage formData;
     EmployeeValues.overtime_rate := overtime_rate formData;
     EmployeeValues.half_day_rate := half_day_rate formData |}.

(** [handleSubmit]: [editingEmployee] and [formData] are the state of the
    page; the result is the database after the call and the toast shown. *)
Definition handleSubmit (editingEmployee : option Employee.row)
    (formData : formData_t) (uid : option uuid) (now : timestamptz)
    (gen_random_uuid : uuid) (db : database) : database * toast :=
  match editingEmployee with
  | Some editing =>
      match update_employees uid now (employeeData formData)
              (λ e, bool_decide (Employee.id e = Employee.id editing)) db with
      | inl error => (db, toast_error "Error updating employee")
      | inr db' => (db', toast_success "Employee updated successfully")
      end
  | None =>
      match insert_employees uid now gen_random_uuid (employeeData formData) db with
      | inl error => (db, toast_error "Error adding employee")
      | inr db' => (db', toast_success "Employee added successfully")
      end
  end.


(** [handleDelete]: [confirm] is the answer to the question "Are you sure
    you want to delete this employee?"; no toast is shown when it is no. *)
Definition handleDelete (confirm : bool) (id : uuid) (uid : option uuid)
    (db : database) : database * option toast :=
  if negb confirm then (db, None)
  else
    match delete_employees uid (λ e, bool_decide (Employee.id e = id)) db with
    | inl error => (db, Some (toast_error "Error deleting employee"))
    | inr db' => (db', Some (toast_success "Employee deleted successfully"))
    end.

End EmployeesPage.

(** ** The layout of the pages *)

Module Layout.

(** [.maybeSingle()]: no row gives [null], one row gives the row, more rows
    give an error. *)
Definition maybeSingle {A} (rows : list A) : PostgrestError + option A :=
  match rows with
  | [] => inr None
  | [row] => inr (Some row)
  | _ =>
      inl {| code := "PGRST116";
             message := "JSON object requested, multiple (or no) rows returned" |}
  end.

(** [supabase.from("user_roles").select("role")] with the filters
    [where_]. *)
Definition select_role (uid : option uuid) (where_ : UserRole.row → bool)
    (db : database) : list app_role :=
  UserRole.role
    <$> filter
          (λ r, permitted user_roles_policies SELECT db uid r && where_ r)
          (user_roles db).

(** [checkUserRole(userId)]: the [isAdmin] state after the call, from the
    one before. *)
Definition checkUserRole (userId : uuid) (uid : option uuid) (db : database)
    (isAdmin : bool) : bool :=
  match maybeSingle
          (select_role uid
             (λ r, bool_decide (UserRole.user_id r = userId)
                   && bool_decide (UserRole.role r = AppRole.admin))
             db) with
  | inr (Some data) => true
  | _ => isAdmin
  end.

Record navItem := mkItem {
  path : string;
  label : string;
  adminOnly : bool;
}.

Definition navItems : list navItem := [
  mkItem "/" "Dashboard" false;
  mkItem "/employees" "Employees" true;
  mkItem "/attendance" "Attendance" true;
  mkItem "/wages" "Wages" false;
  mkItem "/reports" "Reports" false
].

(** The links [navItems.map] renders: an item is left out when
    [item.adminOnly && !isAdmin]. *)
Definition links (isAdmin : bool) : list navItem :=
  filter (λ item, negb (adminOnly item && negb isAdmin)) navItems.

End Layout.

(** [UNIQUE (user_id, role)] as a property of the roles table. *)
Definition user_roles_unique (db : database) : Prop :=
  NoDup ((λ r, (UserRole.user_id r, UserRole.role r)) <$> user_roles db).

(** ** The lists the pages load *)

(** [supabase.from("employees").select(...)] with the filters [where_], before
    any ordering: the rows the [SELECT] policies show to [uid]. *)
Definition select_employees (uid : option uuid)
    (where_ : Employee.row → bool) (db : database) : list Employee.row :=
  filter
    (λ e, permitted employees_policies SELECT db uid e && where_ e)
    (employees db).

(** [supabase.from("wages").select(...)] with the filters [where_], before
    any ordering. *)
Definition select_wages (uid : option uuid)
    (where_ : Wage.row → bool) (db : database) : list Wage.row :=
  filter
    (λ w, permitted wages_policies SELECT db uid w && where_ w)
    (wages db).

(** The embedded resource [employees(...)] of a row with the foreign key
    [employee_id]: the employee with that id among those [uid] may read,
    [null] when there is none. *)
Definition embedded_employee (uid : option uuid) (db : database)
    (employee_id : uuid) : option Employee.row :=
  find (λ e, bool_decide (Employee.id e = employee_id))
    (select_employees uid (λ _, true) db).

(** [ORDER BY paid_at DESC NULLS LAST] *)
Definition paid_at_desc_nulls_last (a b : Wage.row) : Prop :=
  match Wage.paid_at a, Wage.paid_at b with
  | Some x, Some y => (y ≤ x)%Z
  | Some _, None => True
  | None, Some _ => False
  | None, None => True
  end.

#[global] Instance paid_at_desc_nulls_last_dec a b :
  Decision (paid_at_desc_nulls_last a b).
Proof.
  unfold paid_at_desc_nulls_last.
  destruct (Wage.paid_at a), (Wage.paid_at b); apply _.
Defined.

(** [ORDER BY created_at DESC] on [wages] and on [attendance]. *)
Definition wage_created_at_desc (a b : Wage.row) : Prop :=
  (Wage.created_at b ≤ Wage.created_at a)%Z.

#[global] Instance wage_created_at_desc_dec a b :
  Decision (wage_created_at_desc a b).
Proof. unfold wage_created_at_desc. apply _. Defined.

Definition attendance_created_at_desc (a b : Attendance.row) : Prop :=
  (Attendance.created_at b ≤ Attendance.created_at a)%Z.

#[global] Instance attendance_created_at_desc_dec a b :
  Decision (attendance_created_at_desc a b).
Proof. unfold attendance_created_at_desc. apply _. Defined.

Module WagesPageData.

(** [loadEmployees] of the wages page: the new [employees] state.
    [collate a b] tells whether the database sorts the name [a] before or
    with the name [b]. *)
Definition loadEmployees (collate : string → string → bool)
    (uid : option uuid) (db : database) : list Employee.row :=
  merge_sort
    (λ a b, Is_true (collate (Employee.full_name a) (Employee.full_name b)))
    (select_employees uid
       (λ e, bool_decide (Employee.status e = Employee.active)) db).

(** [loadWages] of the wages page: the new [wages] state, each record
    with its [employees]. *)
Definition loadWages (uid : option uuid) (db : database)
    : list (Wage.row * option Employee.row) :=
  (λ w, (w, embedded_employee uid db (Wage.employee_id w)))
    <$> merge_sort wage_created_at_desc (select_wages uid (λ _, true) db).

End WagesPageData.

Module AttendancePageData.

(** [loadAttendance]: the new [attendance] state for [selectedDate]. *)
Definition loadAttendance (selectedDate : date) (uid : option uuid)
    (db : database) : list (Attendance.row * option Employee.row) :=
  (λ a, (a, embedded_employee uid db (Attendance.employee_id a)))
    <$> merge_sort attendance_created_at_desc
          (filter
             (λ a, permitted attendance_policies SELECT db uid a
                   && bool_decide (Attendance.date a = selectedDate))
             (attendance db)).

End AttendancePageData.

Module ReportsPageData.

(** [loadWages] of the reports page: the new [wages] state and the
    statistics [calculateStats(data)] sets. *)
Definition loadWages (uid : option uuid) (db : database)
    : list (Wage.row * option Employee.row) * ReportsPage.stats_t :=
  let data :=
    merge_sort paid_at_desc_nulls_last (select_wages uid (λ _, true) db) in
  ((λ w, (w, embedded_employee uid db (Wage.employee_id w))) <$> data,
   ReportsPage.calculateStats data).

End ReportsPageData.

(** Every wage record and every attendance record belongs to an employee
    of the table ([employee_id UUID REFERENCES public.employees(id)]). *)
Definition wages_reference_employees (db : database) : Prop :=
  ∀ w, w ∈ wages db → ∃ e, e ∈ employees db ∧ Employee.id e = Wage.employee_id w.

Definition attendance_references_employees (db : database) : Prop :=
  ∀ a, a ∈ attendance db →
       ∃ e, e ∈ employees db ∧ Employee.id e = Attendance.employee_id a.

(** An amount is read back as stored when the double the page receives
    for it goes back into its [DECIMAL(10, 2)] column as the same value. *)
Definition reads_back (n : decimal) : bool :=
  match to_decimal 10 (to_number n) with
  | numeric_value m => bool_decide (m = n)
  | _ => false
  end.

(** * Properties *)

(** ** The accumulation loop *)

(** A loop that adds [f a] for the records [a] with [P a] adds [f] over
    the records with [P], in the same order. *)
Lemma foldl_guarded {A} (P : A → bool) (f : A → number) (s : number) (l : list A) :
  foldl (λ s a, if P a then (s + f a)%float else s) s l
  = foldl (λ s a, (s + f a)%float) s (filter (λ a, P a) l).
Proof.
  revert s. induction l as [|a l IH]; intros s; [done|].
  rewrite filter_cons. cbn [foldl]. rewrite IH.
  destruct (P a); [rewrite decide_True by done|rewrite decide_False by exact id]; done.
Qed.

(** The three accumulators do not depend on one another. *)
Lemma foldl_forEach_body employee acc l :
  foldl (WagesPage.forEach_body employee) acc l =
  WagesPage.mkTotals
    (foldl (λ s a, if worked a
                   then (s + status_pay employee (Attendance.status a))%float
                   else s)
       (WagesPage.baseWage acc) l)
    (foldl (λ s a, if has_overtime a
                   then (s + ToNumber (Attendance.overtime_hours a)
                             * to_number (Employee.overtime_rate employee))%float
                   else s)
       (WagesPage.overtimeAmount acc) l)
    (foldl (λ s a, if has_advance a
                   then (s + ToNumber (Attendance.advance_taken a))%float
                   else s)
       (WagesPage.advanceDeductions acc) l).
Proof.
  revert acc. induction l as [|a l IH]; intros acc; [by destruct acc|].
  cbn [foldl]. rewrite IH. unfold WagesPage.forEach_body.
  cbn [WagesPage.baseWage WagesPage.overtimeAmount WagesPage.advanceDeductions].
  f_equal. unfold worked, status_pay.
  by destruct (Attendance.status a).
Qed.

Lemma accumulate_sums employee l :
  WagesPage.accumulate employee l =
  WagesPage.mkTotals
    (sum_in_order (λ a, status_pay employee (Attendance.status a))
       (filter (λ a, worked a) l))
    (sum_in_order
       (λ a, (ToNumber (Attendance.overtime_hours a)
              * to_number (Employee.overtime_rate employee))%float)
       (filter (λ a, has_overtime a) l))
    (sum_in_order (λ a, ToNumber (Attendance.advance_taken a))
       (filter (λ a, has_advance a) l)).
Proof.
  unfold WagesPage.accumulate, sum_in_order.
  rewrite foldl_forEach_body.
  cbn [WagesPage.baseWage WagesPage.overtimeAmount WagesPage.advanceDeductions].
  by rewrite <- !foldl_guarded.
Qed.

(** A record with a negative advance (a refund of 100, say) is left out
    of [advanceDeductions], so the deductions are 0 and not the sum -100 of
    the advances; and advances of 0.10 and 0.20 add up to the double
    0.30000000000000004, not to 0.30. *)
Lemma negative_advance_is_left_out :
  let refund :=
    Attendance.mk "a6" "e1" 13 Attendance.absent (Some 0%Z)
      (Some (Sample.q (-100))) None 5 5 in
  let dime :=
    Attendance.mk "a7" "e1" 14 Attendance.absent (Some 0%Z) (Some 10%Z) None 6 6 in
  let two_dimes :=
    Attendance.mk "a8" "e1" 15 Attendance.absent (Some 0%Z) (Some 20%Z) None 7 7 in
  to_number (Sample.q (-100)) = (-100)%float
  ∧ WagesPage.advanceDeductions (WagesPage.accumulate Sample.e1 [refund]) = 0%float
  ∧ WagesPage.advanceDeductions (WagesPage.accumulate Sample.e1 [refund])
    ≠ ToNumber (Attendance.advance_taken refund)
  ∧ WagesPage.advanceDeductions (WagesPage.accumulate Sample.e1 [dime; two_dimes])
    ≠ to_number 30.
Proof.
  repeat split.
  - vm_compute. discriminate.
  - vm_compute. discriminate.
Qed.

(** C1, as the code has it.  The loop keeps three sums, each taken in the
    arithmetic of doubles from the first record fetched to the last:
    [baseWage] adds [daily_wage] for a present day and [half_day_rate] for
    a half day, and nothing for an absence; [overtimeAmount] adds
    [overtime_hours * overtime_rate] for the records with
    [overtime_hours > 0]; [advanceDeductions] adds [advance_taken] for the
    records with [advance_taken > 0].  For the employee with
    [daily_wage=500, overtime_rate=50, half_day_rate=250] and the records
    present (0 OT, 0 adv), half_day (2 OT, 0 adv), absent (0 OT, 100 adv)
    the sums are 750, 100 and 100, the total is 750, and [calculateWage]
    stores 750.00, 100.00, 100.00 and 750.00. *)
Theorem accumulate_is_guarded_sum :
  (∀ employee attendanceData,
     WagesPage.baseWage (WagesPage.accumulate employee attendanceData)
     = sum_in_order (λ a, status_pay employee (Attendance.status a))
         (filter (λ a, worked a) attendanceData)
     ∧ WagesPage.overtimeAmount (WagesPage.accumulate employee attendanceData)
       = sum_in_order
           (λ a, (ToNumber (Attendance.overtime_hours a)
                  * to_number (Employee.overtime_rate employee))%float)
           (filter (λ a, has_overtime a) attendanceData)
     ∧ WagesPage.advanceDeductions (WagesPage.accumulate employee attendanceData)
       = sum_in_order (λ a, ToNumber (Attendance.advance_taken a))
           (filter (λ a, has_advance a) attendanceData))
  ∧ to_number (Employee.daily_wage Sample.e1) = 500%float
  ∧ to_number (Employee.overtime_rate Sample.e1) = 50%float
  ∧ to_number (Employee.half_day_rate Sample.e1) = 250%float
  ∧ WagesPage.accumulate Sample.e1 [Sample.a1; Sample.a2; Sample.a3]
    = WagesPage.mkTotals 750 100 100
  ∧ WageInsert.total_wage
      (WagesPage.wage_values (WagesPage.mkForm "e1" 10 12 Wage.weekly)
         (WagesPage.accumulate Sample.e1 [Sample.a1; Sample.a2; Sample.a3]))
    = 750%float
  ∧ WagesPage.calculateWage [Sample.e1; Sample.e2]
      (WagesPage.mkForm "e1" 10 12 Wage.weekly) (Some Sample.boss) 7 "w3"
      Sample.db0
    = (with_wages Sample.db0
         (wages Sample.db0 ++
          [Wage.mk "w3" "e1" 10 12 Wage.weekly (Sample.q 750)
             (Some (Sample.q 100)) (Some (Sample.q 100)) (Sample.q 750)
             false None 7 7]),
       toast_success "Wage calculated successfully").
Proof.
  split; [|repeat split; vm_compute; reflexivity].
  intros employee l. by rewrite accumulate_sums.
Qed.

(** ** [calculateWage] as a whole *)

Lemma permitted_wages_INSERT db uid w :
  permitted wages_policies INSERT db uid w = has_role db uid AppRole.admin.
Proof. unfold permitted; simpl. by destruct (has_role db uid AppRole.admin). Qed.

Lemma permitted_wages_UPDATE db uid w :
  permitted wages_policies UPDATE db uid w = has_role db uid AppRole.admin.
Proof. unfold permitted; simpl. by destruct (has_role db uid AppRole.admin). Qed.

Lemma permitted_wages_SELECT db uid w :
  permitted wages_policies SELECT db uid w
  = has_role db uid AppRole.admin || owns_employee db uid (Wage.employee_id w).
Proof.
  unfold permitted; simpl.
  destruct (has_role db uid AppRole.admin); [done|].
  by destruct (owns_employee db uid (Wage.employee_id w)).
Qed.

Lemma permitted_attendance_SELECT db uid a :
  permitted attendance_policies SELECT db uid a
  = has_role db uid AppRole.admin || owns_employee db uid (Attendance.employee_id a).
Proof.
  unfold permitted; simpl.
  destruct (has_role db uid AppRole.admin); [done|].
  by destruct (owns_employee db uid (Attendance.employee_id a)).
Qed.

Lemma permitted_attendance_INSERT db uid a :
  permitted attendance_policies INSERT db uid a = has_role db uid AppRole.admin.
Proof. unfold permitted; simpl. by destruct (has_role db uid AppRole.admin). Qed.

Lemma employee_exists_spec db employee_id :
  employee_exists db employee_id = true ↔
  ∃ e, e ∈ employees db ∧ Employee.id e = employee_id.
Proof.
  unfold employee_exists. rewrite existsb_exists. split.
  - intros (e & He & Hid). apply bool_decide_eq_true in Hid.
    exists e. by rewrite list_elem_of_In.
  - intros (e & He & Hid). exists e. rewrite <- list_elem_of_In.
    by rewrite bool_decide_eq_true.
Qed.

Lemma overflows_false_4 a b c d :
  overflows a || overflows b || overflows c || overflows d = false ↔
  overflows a = false ∧ overflows b = false
  ∧ overflows c = false ∧ overflows d = false.
Proof.
  destruct (overflows a), (overflows b), (overflows c), (overflows d);
    simpl; intuition congruence.
Qed.

(** The insert of a wage record, check by check. *)
Lemma insert_wages_cases uid now gen_random_uuid v db :
  insert_wages uid now gen_random_uuid v db =
  if overflows (to_decimal 10 (WageInsert.base_wage v))
     || overflows (to_decimal 10 (WageInsert.overtime_amount v))
     || overflows (to_decimal 10 (WageInsert.advance_deductions v))
     || overflows (to_decimal 10 (WageInsert.total_wage v))
  then inl numeric_field_overflow
  else if negb (has_role db uid AppRole.admin)
  then inl (rls_violation "wages")
  else if is_null (to_decimal 10 (WageInsert.base_wage v))
  then inl (not_null_violation "base_wage" "wages")
  else if is_null (to_decimal 10 (WageInsert.total_wage v))
  then inl (not_null_violation "total_wage" "wages")
  else if negb (employee_exists db (WageInsert.employee_id v))
  then inl (foreign_key_violation "wages" "wages_employee_id_fkey")
  else inr (with_wages db (wages db ++ [new_wage now gen_random_uuid v])).
Proof. unfold insert_wages. by rewrite permitted_wages_INSERT. Qed.

(** Every error of the insert carries a message, so the toast of
    [calculateWage] shows it and not the fallback. *)
Lemma insert_wages_message uid now gen_random_uuid v db error :
  insert_wages uid now gen_random_uuid v db = inl error →
  or_else (message error) "Error calculating wage" = message error.
Proof.
  rewrite insert_wages_cases. intros H.
  repeat match type of H with
         | (if ?c then _ else _) = _ => destruct c
         end;
    by simplify_eq.
Qed.

Lemma insert_wages_inr uid now gen_random_uuid v db db' :
  insert_wages uid now gen_random_uuid v db = inr db' ↔
  wage_fits v
  ∧ has_role db uid AppRole.admin = true
  ∧ is_null (to_decimal 10 (WageInsert.base_wage v)) = false
  ∧ is_null (to_decimal 10 (WageInsert.total_wage v)) = false
  ∧ employee_exists db (WageInsert.employee_id v) = true
  ∧ db' = with_wages db (wages db ++ [new_wage now gen_random_uuid v]).
Proof.
  rewrite insert_wages_cases. unfold wage_fits.
  rewrite <- overflows_false_4.
  destruct (_ || _ || _ || _); [intuition congruence|].
  destruct (has_role db uid AppRole.admin); cbn [negb]; [|intuition congruence].
  destruct (is_null (to_decimal 10 (WageInsert.base_wage v))); [intuition congruence|].
  destruct (is_null (to_decimal 10 (WageInsert.total_wage v))); [intuition congruence|].
  destruct (employee_exists db (WageInsert.employee_id v)); cbn [negb];
    intuition congruence.
Qed.

(** [calculateWage], case by case. *)
Lemma calculateWage_cases employees formData uid now gen_random_uuid db :
  WagesPage.calculateWage employees formData uid now gen_random_uuid db =
  match find (λ e, bool_decide (Employee.id e = WagesPage.employee_id formData))
          employees with
  | None => (db, toast_error "Employee not found")
  | Some employee =>
      match insert_wages uid now gen_random_uuid
              (WagesPage.wage_values formData
                 (WagesPage.accumulate employee (fetched formData uid db))) db with
      | inl error => (db, toast_error (message error))
      | inr db' => (db', toast_success "Wage calculated successfully")
      end
  end.
Proof.
  unfold WagesPage.calculateWage, WagesPage.calculateWage_try.
  destruct (find _ employees) as [employee|]; [|done].
  unfold select_attendance. fold (fetched formData uid db).
  destruct (insert_wages _ _ _ _ _) as [error|db'] eqn:Hinsert; [|done].
  cbn [WagesPage.thrown_message].
  by rewrite (insert_wages_message _ _ _ _ _ _ Hinsert).
Qed.

Lemma in_period_inverted formData a :
  (WagesPage.period_end formData < WagesPage.period_start formData)%Z →
  WagesPage.in_period formData a = false.
Proof.
  intros Hinv. unfold WagesPage.in_period.
  destruct (bool_decide (Attendance.employee_id a = _)); [simpl|done].
  case_bool_decide; [simpl|done]. case_bool_decide; [lia|done].
Qed.

Lemma in_period_spec formData a :
  WagesPage.in_period formData a = true ↔
  Attendance.employee_id a = WagesPage.employee_id formData
  ∧ (WagesPage.period_start formData ≤ Attendance.date a
     ≤ WagesPage.period_end formData)%Z.
Proof.
  unfold WagesPage.in_period.
  rewrite !andb_true_iff, !bool_decide_eq_true. tauto.
Qed.

Lemma fetched_nil formData uid db :
  (∀ a, a ∈ attendance db → WagesPage.in_period formData a = false) →
  fetched formData uid db = [].
Proof.
  intros Hnone. unfold fetched.
  induction (attendance db) as [|a l IH]; [done|].
  rewrite filter_cons, decide_False.
  - apply IH. intros b Hb. apply Hnone. by constructor.
  - rewrite (Hnone a) by constructor. rewrite andb_false_r. exact id.
Qed.

(** Without attendance the four amounts are 0, which every column takes:
    the insert depends on the caller and on the employee only. *)
Lemma insert_wages_nil formData employee uid now gen_random_uuid db :
  insert_wages uid now gen_random_uuid
    (WagesPage.wage_values formData (WagesPage.accumulate employee [])) db
  = if negb (has_role db uid AppRole.admin)
    then inl (rls_violation "wages")
    else if negb (employee_exists db (WagesPage.employee_id formData))
    then inl (foreign_key_violation "wages" "wages_employee_id_fkey")
    else inr (with_wages db (wages db ++ [zero_wage formData now gen_random_uuid])).
Proof. by rewrite insert_wages_cases. Qed.

(** An employee who is not an administrator asks for the wage of a week
    without attendance: the request is refused and nothing is stored. *)
Lemma empty_period_refused :
  let formData := WagesPage.mkForm "e1" 20 26 Wage.weekly in
  fetched formData (Some Sample.asha) Sample.db0 = []
  ∧ WagesPage.calculateWage [Sample.e1] formData (Some Sample.asha) 7 "w3" Sample.db0
    = (Sample.db0, toast_error (message (rls_violation "wages"))).
Proof. split; reflexivity. Qed.

(** C10, as the code has it.  When no attendance record of the employee
    falls within [[period_start, period_end]] (in particular when the range
    is empty because [period_start > period_end]), [calculateWage], called
    by an administrator for an employee that is among the employees of the
    page and still in the table, succeeds and appends a wage record whose
    base wage, overtime amount, advance deductions and total are 0 and
    whose [paid] is false. *)
Theorem calculateWage_no_attendance
    page_employees formData uid now gen_random_uuid db employee :
  has_role db uid AppRole.admin = true →
  find (λ e, bool_decide (Employee.id e = WagesPage.employee_id formData))
    page_employees = Some employee →
  (∃ e, e ∈ employees db ∧ Employee.id e = WagesPage.employee_id formData) →
  ((WagesPage.period_end formData < WagesPage.period_start formData)%Z
   ∨ ∀ a, a ∈ attendance db →
          Attendance.employee_id a = WagesPage.employee_id formData →
          ¬ (WagesPage.period_start formData ≤ Attendance.date a
             ≤ WagesPage.period_end formData)%Z) →
  ∃ w,
    WagesPage.calculateWage page_employees formData uid now gen_random_uuid db
    = (with_wages db (wages db ++ [w]),
       toast_success "Wage calculated successfully")
    ∧ Wage.base_wage w = 0%Z
    ∧ Wage.overtime_amount w = Some 0%Z
    ∧ Wage.advance_deductions w = Some 0%Z
    ∧ Wage.total_wage w = 0%Z
    ∧ Wage.paid w = false.
Proof.
  intros Hadmin Hfind Hexists Hnone.
  exists (zero_wage formData now gen_random_uuid).
  split; [|done].
  apply employee_exists_spec in Hexists.
  rewrite calculateWage_cases, Hfind, fetched_nil.
  - by rewrite insert_wages_nil, Hadmin, Hexists.
  - intros a Ha. destruct Hnone as [Hinv|Hnone].
    + by apply in_period_inverted.
    + apply not_true_is_false. rewrite in_period_spec.
      intros [Heq Hin]. by apply (Hnone a).
Qed.

Lemma calculateWage_no_attendance_witness :
  ∃ w,
    WagesPage.calculateWage [Sample.e1; Sample.e2]
      (WagesPage.mkForm "e2" 20 26 Wage.weekly) (Some Sample.boss) 7 "w3"
      Sample.db0
    = (with_wages Sample.db0 (wages Sample.db0 ++ [w]),
       toast_success "Wage calculated successfully")
    ∧ Wage.base_wage w = 0%Z
    ∧ Wage.overtime_amount w = Some 0%Z
    ∧ Wage.advance_deductions w = Some 0%Z
    ∧ Wage.total_wage w = 0%Z
    ∧ Wage.paid w = false.
Proof.
  apply (calculateWage_no_attendance [Sample.e1; Sample.e2]
           (WagesPage.mkForm "e2" 20 26 Wage.weekly) (Some Sample.boss) 7 "w3"
           Sample.db0 Sample.e2).
  - reflexivity.
  - reflexivity.
  - exists Sample.e2. split; [|reflexivity].
    apply elem_of_cons. right. apply elem_of_cons. by left.
  - right. intros a Ha Hid [Hlo Hhi]. simpl in *.
    repeat (apply elem_of_cons in Ha as [->|Ha]; [simpl in *; first [discriminate|lia]|]).
    by apply elem_of_nil in Ha.
Defined.

(** A request with [period_start = 12 > period_end = 10] by an
    administrator is not refused: it succeeds and stores a wage record. *)
Lemma inverted_period_is_accepted :
  (WagesPage.period_end (WagesPage.mkForm "e1" 12 10 Wage.weekly)
   < WagesPage.period_start (WagesPage.mkForm "e1" 12 10 Wage.weekly))%Z
  ∧ WagesPage.calculateWage [Sample.e1; Sample.e2]
      (WagesPage.mkForm "e1" 12 10 Wage.weekly) (Some Sample.boss) 7 "w3"
      Sample.db0
    = (with_wages Sample.db0
         (wages Sample.db0 ++
          [Wage.mk "w3" "e1" 12 10 Wage.weekly 0 (Some 0%Z) (Some 0%Z) 0
             false None 7 7]),
       toast_success "Wage calculated successfully").
Proof. split; [done|]. reflexivity. Qed.

(** C7, as the code has it.  [calculateWage] does not validate the date
    range.  With [period_start > period_end] the attendance query returns
    no row and the call goes on as for any period without attendance.  It
    reports "Employee not found" when the employee is not among the
    employees of the page; it shows the message of the policy refusal when
    the caller is not an administrator, and the message of the foreign-key
    violation when the employee has left the table since the page loaded;
    otherwise it succeeds and stores an unpaid wage record, all amounts 0,
    that carries the inverted period. *)
Theorem calculateWage_inverted_period
    employees formData uid now gen_random_uuid db :
  (WagesPage.period_end formData < WagesPage.period_start formData)%Z →
  WagesPage.calculateWage employees formData uid now gen_random_uuid db =
  match find (λ e, bool_decide (Employee.id e = WagesPage.employee_id formData))
          employees with
  | None => (db, toast_error "Employee not found")
  | Some _ =>
      if negb (has_role db uid AppRole.admin)
      then (db, toast_error (message (rls_violation "wages")))
      else if negb (employee_exists db (WagesPage.employee_id formData))
      then (db, toast_error
                  (message (foreign_key_violation "wages" "wages_employee_id_fkey")))
      else (with_wages db (wages db ++ [zero_wage formData now gen_random_uuid]),
            toast_success "Wage calculated successfully")
  end.
Proof.
  intros Hinv. rewrite calculateWage_cases.
  destruct (find _ employees) as [employee|]; [|done].
  rewrite fetched_nil, insert_wages_nil.
  - destruct (has_role db uid AppRole.admin); [|done].
    by destruct (employee_exists db (WagesPage.employee_id formData)).
  - intros a _. by apply in_period_inverted.
Qed.

Lemma calculateWage_inverted_period_witness :
  WagesPage.calculateWage [Sample.e1; Sample.e2]
    (WagesPage.mkForm "e1" 12 10 Wage.monthly) (Some Sample.boss) 7 "w3"
    Sample.db0
  = (with_wages Sample.db0
       (wages Sample.db0 ++
        [zero_wage (WagesPage.mkForm "e1" 12 10 Wage.monthly) 7 "w3"]),
     toast_success "Wage calculated successfully").
Proof.
  apply (calculateWage_inverted_period [Sample.e1; Sample.e2]
           (WagesPage.mkForm "e1" 12 10 Wage.monthly) (Some Sample.boss) 7 "w3"
           Sample.db0).
  simpl. lia.
Defined.

(** C2 at a record the code stores.  Employee ["e3"] is paid 33.33 an
    hour of overtime; on day 10 the employee was absent, with half an hour
    of overtime and an advance of 100.  [calculateWage] sends the doubles
    0, 16.665, 100 and -83.335; each goes into its [DECIMAL(10, 2)] column
    by itself, so the record holds 0.00, 16.67, 100.00 and -83.34.  The
    total is negative and is stored as such, but it is not
    [base_wage + overtime_amount - advance_deductions] of the record, which
    is -83.33. *)
Theorem stored_total_is_a_cent_off :
  ∃ w,
    WagesPage.calculateWage [Sample.e1; Sample.e2; Sample.e3]
      (WagesPage.mkForm "e3" 10 12 Wage.weekly) (Some Sample.boss) 7 "w3"
      Sample.db1
    = (with_wages Sample.db1 (wages Sample.db1 ++ [w]),
       toast_success "Wage calculated successfully")
    ∧ Wage.base_wage w = 0%Z
    ∧ Wage.overtime_amount w = Some 1667%Z
    ∧ Wage.advance_deductions w = Some 10000%Z
    ∧ Wage.total_wage w = (-8334)%Z
    ∧ (Wage.total_wage w
       ≠ Wage.base_wage w + default 0 (Wage.overtime_amount w)
         - default 0 (Wage.advance_deductions w))%Z.
Proof.
  exists (Wage.mk "w3" "e3" 10 12 Wage.weekly 0 (Some 1667%Z) (Some 10000%Z)
            (-8334) false None 7 7).
  split; [vm_compute; reflexivity|]. repeat split. simpl. lia.
Qed.

(** C8.  Two runs of [calculateWage] that differ only in the calculation
    type show the same toast; when they fail both leave the database as it
    is, and when they succeed the two stored records have the same base
    wage, overtime amount, advance deductions and total, and every other
    column equal, except [calculation_type], which holds the type asked
    for. *)
Theorem calculation_type_is_a_label
    employees employee_id period_start period_end ct1 ct2
    uid now gen_random_uuid db :
  let run ct :=
    WagesPage.calculateWage employees
      (WagesPage.mkForm employee_id period_start period_end ct)
      uid now gen_random_uuid db in
  (run ct1).2 = (run ct2).2
  ∧ match (run ct1).2 with
    | toast_error _ => (run ct1).1 = db ∧ (run ct2).1 = db
    | toast_success _ =>
        ∃ w1 w2,
          (run ct1).1 = with_wages db (wages db ++ [w1])
          ∧ (run ct2).1 = with_wages db (wages db ++ [w2])
          ∧ Wage.calculation_type w1 = ct1
          ∧ Wage.calculation_type w2 = ct2
          ∧ Wage.base_wage w1 = Wage.base_wage w2
          ∧ Wage.overtime_amount w1 = Wage.overtime_amount w2
          ∧ Wage.advance_deductions w1 = Wage.advance_deductions w2
          ∧ Wage.total_wage w1 = Wage.total_wage w2
          ∧ Wage.id w1 = Wage.id w2
          ∧ Wage.employee_id w1 = Wage.employee_id w2
          ∧ Wage.period_start w1 = Wage.period_start w2
          ∧ Wage.period_end w1 = Wage.period_end w2
          ∧ Wage.paid w1 = Wage.paid w2
          ∧ Wage.paid_at w1 = Wage.paid_at w2
          ∧ Wage.created_at w1 = Wage.created_at w2
          ∧ Wage.updated_at w1 = Wage.updated_at w2
    end.
Proof.
  intros run. unfold run. rewrite !calculateWage_cases.
  cbn [WagesPage.employee_id].
  destruct (find _ employees) as [employee|]; [|done].
  change (fetched (WagesPage.mkForm employee_id period_start period_end ct2) uid db)
    with (fetched (WagesPage.mkForm employee_id period_start period_end ct1) uid db).
  set (t := WagesPage.accumulate employee _).
  rewrite !insert_wages_cases.
  cbn [WagesPage.wage_values WageInsert.base_wage WageInsert.overtime_amount
       WageInsert.advance_deductions WageInsert.total_wage
       WageInsert.employee_id WagesPage.employee_id].
  destruct (_ || _ || _ || _); [done|].
  destruct (negb (has_role db uid AppRole.admin)); [done|].
  destruct (is_null (to_decimal 10 (WagesPage.baseWage t))); [done|].
  destruct (is_null (to_decimal 10 _)); [done|].
  destruct (negb (employee_exists db employee_id)); [done|].
  cbn [fst snd]. split; [done|]. do 2 eexists. do 2 (split; [reflexivity|]).
  cbn. repeat split.
Qed.

(** ** [markAsPaid] *)

Lemma update_target_wages uid where_ db w :
  update_target uid where_ db w = has_role db uid AppRole.admin && where_ w.
Proof.
  unfold update_target.
  rewrite permitted_wages_SELECT, permitted_wages_UPDATE.
  destruct (has_role db uid AppRole.admin); [done|].
  by destruct (owns_employee db uid (Wage.employee_id w)).
Qed.

(** An [UPDATE] on [wages] raises no error: for an administrator the new
    rows pass the policy, for anyone else no row is reached. *)
Lemma update_wages_cases uid now set where_ db :
  update_wages uid now set where_ db =
  inr (with_wages db
         ((λ w, if has_role db uid AppRole.admin && where_ w
                then update_updated_at_column now (set w) else w)
            <$> wages db)).
Proof.
  unfold update_wages.
  assert (forallb
            (λ w, negb (update_target uid where_ db w)
                  || permitted wages_policies UPDATE db uid
                       (update_updated_at_column now (set w)))
            (wages db) = true) as ->.
  { apply forallb_forall. intros w _.
    rewrite update_target_wages, permitted_wages_UPDATE.
    by destruct (has_role db uid AppRole.admin), (where_ w). }
  do 2 f_equal. apply list_fmap_ext. intros _ w _.
  by rewrite update_target_wages.
Qed.

Lemma markAsPaid_cases id uid new_Date now db :
  WagesPage.markAsPaid id uid new_Date now db =
  (with_wages db
     ((λ w, if has_role db uid AppRole.admin && bool_decide (Wage.id w = id)
            then update_updated_at_column now (WagesPage.set_paid new_Date w)
            else w)
        <$> wages db),
   toast_success "Marked as paid").
Proof. unfold WagesPage.markAsPaid. by rewrite update_wages_cases. Qed.

Lemma has_role_markAsPaid id uid new_Date now db u role :
  has_role (WagesPage.markAsPaid id uid new_Date now db).1 u role
  = has_role db u role.
Proof. by rewrite markAsPaid_cases. Qed.

Lemma markAsPaid_lookup id uid new_Date now db i w :
  wages db !! i = Some w →
  wages (WagesPage.markAsPaid id uid new_Date now db).1 !! i =
  Some (if has_role db uid AppRole.admin && bool_decide (Wage.id w = id)
        then update_updated_at_column now (WagesPage.set_paid new_Date w)
        else w).
Proof.
  intros Hw. rewrite markAsPaid_cases; simpl.
  by rewrite list_lookup_fmap, Hw.
Qed.

(** After [markAsPaid] at browser time 20 and database time 21, the row
    ["w1"], last updated at 5, has [updated_at = 21]. *)
Lemma trigger_touches_updated_at :
  wages Sample.db0 !! 0%nat = Some Sample.w1
  ∧ Wage.updated_at Sample.w1 = 5%Z
  ∧ wages (WagesPage.markAsPaid "w1" (Some Sample.boss) 20 21 Sample.db0).1 !! 0%nat
    = Some (Wage.mk "w1" "e1" 10 12 Wage.weekly (Sample.q 750)
              (Some (Sample.q 100)) (Some (Sample.q 100)) (Sample.q 750) true (Some 20%Z) 5 21)
  ∧ Wage.updated_at
      <$> wages (WagesPage.markAsPaid "w1" (Some Sample.boss) 20 21 Sample.db0).1
          !! 0%nat
    ≠ Some (Wage.updated_at Sample.w1).
Proof. repeat split. simpl. discriminate. Qed.

(** C9, as the code has it.  For every existing wage record, [markAsPaid]
    called by an administrator sets [paid] to true and [paid_at] to the
    current time of the caller, and the trigger [update_wages_updated_at]
    sets [updated_at] to the current time of the database.  No other column
    of the record changes: [id], [employee_id], [period_start],
    [period_end], [calculation_type], [base_wage], [overtime_amount],
    [advance_deductions], [total_wage] and [created_at] are as before.  The
    records with another id and the other tables are as before. *)
Theorem markAsPaid_frame id uid new_Date now db i w :
  has_role db uid AppRole.admin = true →
  wages db !! i = Some w →
  Wage.id w = id →
  let db' := (WagesPage.markAsPaid id uid new_Date now db).1 in
  (∃ w', wages db' !! i = Some w'
         ∧ Wage.paid w' = true
         ∧ Wage.paid_at w' = Some new_Date
         ∧ Wage.updated_at w' = now
         ∧ Wage.id w' = Wage.id w
         ∧ Wage.employee_id w' = Wage.employee_id w
         ∧ Wage.period_start w' = Wage.period_start w
         ∧ Wage.period_end w' = Wage.period_end w
         ∧ Wage.calculation_type w' = Wage.calculation_type w
         ∧ Wage.base_wage w' = Wage.base_wage w
         ∧ Wage.overtime_amount w' = Wage.overtime_amount w
         ∧ Wage.advance_deductions w' = Wage.advance_deductions w
         ∧ Wage.total_wage w' = Wage.total_wage w
         ∧ Wage.created_at w' = Wage.created_at w)
  ∧ (∀ j v, wages db !! j = Some v → Wage.id v ≠ id → wages db' !! j = Some v)
  ∧ length (wages db') = length (wages db)
  ∧ user_roles db' = user_roles db
  ∧ employees db' = employees db
  ∧ attendance db' = attendance db.
Proof.
  intros Hadmin Hw Hid db'. subst db'. split; [|split; [|split]].
  - eexists. split.
    + rewrite (markAsPaid_lookup _ _ _ _ _ _ _ Hw), Hadmin.
      rewrite bool_decide_true by done. reflexivity.
    + repeat split.
  - intros j v Hv Hne. rewrite (markAsPaid_lookup _ _ _ _ _ _ _ Hv).
    rewrite bool_decide_false by done. by rewrite andb_false_r.
  - rewrite markAsPaid_cases; simpl. by rewrite length_fmap.
  - by rewrite markAsPaid_cases.
Qed.

Lemma markAsPaid_frame_witness :
  ∃ w', wages (WagesPage.markAsPaid "w1" (Some Sample.boss) 20 21 Sample.db0).1
          !! 0%nat = Some w'
        ∧ Wage.paid w' = true
        ∧ Wage.paid_at w' = Some 20%Z
        ∧ Wage.updated_at w' = 21%Z
        ∧ Wage.id w' = Wage.id Sample.w1
        ∧ Wage.employee_id w' = Wage.employee_id Sample.w1
        ∧ Wage.period_start w' = Wage.period_start Sample.w1
        ∧ Wage.period_end w' = Wage.period_end Sample.w1
        ∧ Wage.calculation_type w' = Wage.calculation_type Sample.w1
        ∧ Wage.base_wage w' = Wage.base_wage Sample.w1
        ∧ Wage.overtime_amount w' = Wage.overtime_amount Sample.w1
        ∧ Wage.advance_deductions w' = Wage.advance_deductions Sample.w1
        ∧ Wage.total_wage w' = Wage.total_wage Sample.w1
        ∧ Wage.created_at w' = Wage.created_at Sample.w1.
Proof.
  refine (proj1 (markAsPaid_frame "w1" (Some Sample.boss) 20 21 Sample.db0
                   0%nat Sample.w1 _ _ _)); reflexivity.
Defined.

(** Two calls on the unpaid row ["w1"], at browser times 20 and 30: the
    second call replaces the [paid_at] the first call stored. *)
Lemma second_call_overwrites_paid_at :
  let db1 := (WagesPage.markAsPaid "w1" (Some Sample.boss) 20 21 Sample.db0).1 in
  let db2 := (WagesPage.markAsPaid "w1" (Some Sample.boss) 30 31 db1).1 in
  Wage.paid_at <$> wages Sample.db0 !! 0%nat = Some None
  ∧ Wage.paid_at <$> wages db1 !! 0%nat = Some (Some 20%Z)
  ∧ Wage.paid_at <$> wages db2 !! 0%nat = Some (Some 30%Z)
  ∧ Wage.paid_at <$> wages db2 !! 0%nat ≠ Wage.paid_at <$> wages db1 !! 0%nat.
Proof. repeat split. simpl. discriminate. Qed.

(** C3, as the code has it.  Calling [markAsPaid] twice on the id of an
    existing wage record, as an administrator, shows the success toast both
    times and leaves [paid = true] both times; [paid_at] holds the time of
    the first call after the first call and the time of the second call
    after the second call, so it stays as it was only when the two times
    are equal.  (The page shows the "Mark Paid" button of a record only
    while the record is unpaid, so after the first call it does not offer
    the second.) *)
Theorem markAsPaid_twice id uid t1 now1 t2 now2 db i w :
  has_role db uid AppRole.admin = true →
  wages db !! i = Some w →
  Wage.id w = id →
  let r1 := WagesPage.markAsPaid id uid t1 now1 db in
  let r2 := WagesPage.markAsPaid id uid t2 now2 r1.1 in
  r1.2 = toast_success "Marked as paid"
  ∧ r2.2 = toast_success "Marked as paid"
  ∧ ∃ w1 w2,
      wages r1.1 !! i = Some w1
      ∧ wages r2.1 !! i = Some w2
      ∧ Wage.paid w1 = true
      ∧ Wage.paid w2 = true
      ∧ Wage.paid_at w1 = Some t1
      ∧ Wage.paid_at w2 = Some t2
      ∧ (Wage.paid_at w2 = Wage.paid_at w1 ↔ t2 = t1)
      ∧ WagesPage.shows_mark_paid w1 = false.
Proof.
  intros Hadmin Hw Hid r1 r2. subst r1 r2.
  split; [by rewrite markAsPaid_cases|].
  split; [by rewrite markAsPaid_cases|].
  pose proof (markAsPaid_lookup id uid t1 now1 db i w Hw) as H1.
  rewrite Hadmin, bool_decide_true in H1 by done. simpl in H1.
  pose proof (markAsPaid_lookup id uid t2 now2 _ i _ H1) as H2.
  rewrite has_role_markAsPaid, Hadmin, bool_decide_true in H2 by done.
  simpl in H2.
  do 2 eexists. split; [exact H1|]. split; [exact H2|].
  simpl. repeat split; congruence.
Qed.

Lemma markAsPaid_twice_witness :
  let r1 := WagesPage.markAsPaid "w1" (Some Sample.boss) 20 21 Sample.db0 in
  let r2 := WagesPage.markAsPaid "w1" (Some Sample.boss) 30 31 r1.1 in
  r1.2 = toast_success "Marked as paid"
  ∧ r2.2 = toast_success "Marked as paid"
  ∧ ∃ w1 w2,
      wages r1.1 !! 0%nat = Some w1
      ∧ wages r2.1 !! 0%nat = Some w2
      ∧ Wage.paid w1 = true
      ∧ Wage.paid w2 = true
      ∧ Wage.paid_at w1 = Some 20%Z
      ∧ Wage.paid_at w2 = Some 30%Z
      ∧ (Wage.paid_at w2 = Wage.paid_at w1 ↔ 30%Z = 20%Z)
      ∧ WagesPage.shows_mark_paid w1 = false.
Proof.
  refine (markAsPaid_twice "w1" (Some Sample.boss) 20 21 30 31 Sample.db0
            0%nat Sample.w1 _ _ _); reflexivity.
Defined.

(** ** Attendance: one record for an employee and a date *)

Lemma attendance_conflict_spec new rows :
  attendance_conflict new rows = true ↔
  ∃ a, a ∈ rows
       ∧ Attendance.employee_id a = Attendance.employee_id new
       ∧ Attendance.date a = Attendance.date new.
Proof.
  unfold attendance_conflict. rewrite existsb_exists. split.
  - intros (a & Ha & Hab). apply andb_true_iff in Hab as [H1 H2].
    apply bool_decide_eq_true in H1, H2.
    exists a. by rewrite list_elem_of_In.
  - intros (a & Ha & H1 & H2). exists a. rewrite <- list_elem_of_In.
    split; [done|]. by rewrite andb_true_iff, !bool_decide_eq_true.
Qed.

Lemma attendance_fits_spec formData :
  attendance_fits formData ↔
  overflows (to_decimal 5 (AttendancePage.overtime_hours formData))
  || overflows (to_decimal 10 (AttendancePage.advance_taken formData)) = false.
Proof. unfold attendance_fits. by rewrite orb_false_iff. Qed.

(** The insert of an attendance record, check by check. *)
Lemma insert_attendance_cases formData uid now gen_random_uuid db :
  let new := new_attendance now gen_random_uuid
               (AttendancePage.attendanceData formData) in
  insert_attendance uid now gen_random_uuid
    (AttendancePage.attendanceData formData) db =
  if overflows (to_decimal 5 (AttendancePage.overtime_hours formData))
     || overflows (to_decimal 10 (AttendancePage.advance_taken formData))
  then inl numeric_field_overflow
  else if negb (has_role db uid AppRole.admin)
  then inl (rls_violation "attendance")
  else if attendance_conflict new (attendance db)
  then inl (unique_violation "attendance_employee_id_date_key")
  else if negb (employee_exists db (AttendancePage.employee_id formData))
  then inl (foreign_key_violation "attendance" "attendance_employee_id_fkey")
  else inr (with_attendance db (attendance db ++ [new])).
Proof.
  intros new. unfold insert_attendance. fold new.
  by rewrite permitted_attendance_INSERT.
Qed.

(** [handleSubmit], case by case. *)
Lemma handleSubmit_cases formData uid now gen_random_uuid db :
  let new := new_attendance now gen_random_uuid
               (AttendancePage.attendanceData formData) in
  AttendancePage.handleSubmit formData uid now gen_random_uuid db =
  if overflows (to_decimal 5 (AttendancePage.overtime_hours formData))
     || overflows (to_decimal 10 (AttendancePage.advance_taken formData))
  then (db, toast_error "Error marking attendance")
  else if negb (has_role db uid AppRole.admin)
  then (db, toast_error "Error marking attendance")
  else if attendance_conflict new (attendance db)
  then (db, toast_error "Attendance already marked for this employee on this date")
  else if negb (employee_exists db (AttendancePage.employee_id formData))
  then (db, toast_error "Error marking attendance")
  else (with_attendance db (attendance db ++ [new]),
        toast_success "Attendance marked successfully").
Proof.
  intros new. unfold AttendancePage.handleSubmit.
  rewrite insert_attendance_cases. fold new.
  destruct (_ || _); [done|].
  destruct (negb (has_role db uid AppRole.admin)); [done|].
  destruct (attendance_conflict new (attendance db)); [done|].
  by destruct (negb (employee_exists db (AttendancePage.employee_id formData))).
Qed.

(** What a successful [handleSubmit] tells. *)
Lemma handleSubmit_success formData uid now gen_random_uuid db db1 msg :
  AttendancePage.handleSubmit formData uid now gen_random_uuid db
  = (db1, toast_success msg) →
  let new := new_attendance now gen_random_uuid
               (AttendancePage.attendanceData formData) in
  attendance_fits formData
  ∧ has_role db uid AppRole.admin = true
  ∧ attendance_conflict new (attendance db) = false
  ∧ employee_exists db (AttendancePage.employee_id formData) = true
  ∧ db1 = with_attendance db (attendance db ++ [new]).
Proof.
  intros Hrun new. rewrite handleSubmit_cases in Hrun. fold new in Hrun.
  rewrite attendance_fits_spec.
  destruct (_ || _); [done|].
  destruct (has_role db uid AppRole.admin); [|done].
  destruct (attendance_conflict new (attendance db)); [done|].
  destruct (employee_exists db (AttendancePage.employee_id formData)); [|done].
  by injection Hrun as <- _.
Qed.





(** ** The policies *)

Lemma sql_eq_spec a b : sql_eq a b = true ↔ ∃ u, a = Some u ∧ b = Some u.
Proof.
  destruct a as [x|], b as [y|]; simpl;
    try (split; [done|by intros (? & ? & ?)]).
  rewrite bool_decide_eq_true. split.
  - intros ->. by exists y.
  - by intros (u & [= ->] & [= ->]).
Qed.

Lemma owns_employee_spec db uid employee_id :
  owns_employee db uid employee_id = true ↔
  ∃ e, e ∈ employees db ∧ Employee.id e = employee_id ∧ owns uid e.
Proof.
  unfold owns_employee, owns. rewrite existsb_exists. split.
  - intros (e & He & Hb). apply andb_true_iff in Hb as [Hid Hu].
    apply bool_decide_eq_true in Hid. apply sql_eq_spec in Hu as (u & Hu1 & Hu2).
    exists e. rewrite list_elem_of_In. eauto.
  - intros (e & He & Hid & u & Hu1 & Hu2). exists e.
    rewrite <- list_elem_of_In. split; [done|].
    rewrite andb_true_iff, bool_decide_eq_true, sql_eq_spec. eauto.
Qed.

Lemma permitted_employees_SELECT db uid e :
  permitted employees_policies SELECT db uid e
  = has_role db uid AppRole.admin || sql_eq uid (Employee.user_id e).
Proof.
  unfold permitted; simpl.
  destruct (has_role db uid AppRole.admin); [done|].
  by destruct (sql_eq uid (Employee.user_id e)).
Qed.

Ltac permitted_by_role :=
  let c := fresh "c" in
  intros c ? ? ? ?; destruct c; [done|..];
  unfold permitted; simpl;
  match goal with
  | |- context [has_role ?db ?uid ?role] => by destruct (has_role db uid role)
  end.

Lemma permitted_employees_write c db uid e :
  c ≠ SELECT →
  permitted employees_policies c db uid e = has_role db uid AppRole.admin.
Proof. revert c db uid e. permitted_by_role. Qed.

Lemma permitted_attendance_write c db uid a :
  c ≠ SELECT →
  permitted attendance_policies c db uid a = has_role db uid AppRole.admin.
Proof. revert c db uid a. permitted_by_role. Qed.

Lemma permitted_wages_write c db uid w :
  c ≠ SELECT →
  permitted wages_policies c db uid w = has_role db uid AppRole.admin.
Proof. revert c db uid w. permitted_by_role. Qed.

(** C4.  For every principal and every row of [employees], [attendance]
    and [wages]: with the admin role every command ([SELECT], [INSERT],
    [UPDATE], [DELETE]) is permitted on every row; without it, [SELECT] is
    permitted on exactly the employee rows linked to the principal and on
    exactly the attendance and wage rows of an employee linked to the
    principal, and every other command is refused on every row; without the
    admin role and without a linked employee no command is permitted on any
    row. *)
Theorem policies_by_role_and_ownership db uid :
  (has_role db uid AppRole.admin = true →
   ∀ c,
     (∀ e, permitted employees_policies c db uid e = true)
     ∧ (∀ a, permitted attendance_policies c db uid a = true)
     ∧ (∀ w, permitted wages_policies c db uid w = true))
  ∧ (has_role db uid AppRole.admin = false →
     (∀ e, permitted employees_policies SELECT db uid e = true ↔ owns uid e)
     ∧ (∀ a, permitted attendance_policies SELECT db uid a = true ↔
             ∃ e, e ∈ employees db
                  ∧ Employee.id e = Attendance.employee_id a ∧ owns uid e)
     ∧ (∀ w, permitted wages_policies SELECT db uid w = true ↔
             ∃ e, e ∈ employees db
                  ∧ Employee.id e = Wage.employee_id w ∧ owns uid e)
     ∧ (∀ c, c ≠ SELECT →
          (∀ e, permitted employees_policies c db uid e = false)
          ∧ (∀ a, permitted attendance_policies c db uid a = false)
          ∧ (∀ w, permitted wages_policies c db uid w = false))
     ∧ ((∀ e, e ∈ employees db → ¬ owns uid e) →
        ∀ c,
          (∀ e, e ∈ employees db → permitted employees_policies c db uid e = false)
          ∧ (∀ a, permitted attendance_policies c db uid a = false)
          ∧ (∀ w, permitted wages_policies c db uid w = false))).
Proof.
  split.
  - intros Hadmin c. destruct c.
    + repeat split; intros r.
      * by rewrite permitted_employees_SELECT, Hadmin.
      * by rewrite permitted_attendance_SELECT, Hadmin.
      * by rewrite permitted_wages_SELECT, Hadmin.
    + repeat split; intros r.
      * by rewrite permitted_employees_write.
      * by rewrite permitted_attendance_write.
      * by rewrite permitted_wages_write.
    + repeat split; intros r.
      * by rewrite permitted_employees_write.
      * by rewrite permitted_attendance_write.
      * by rewrite permitted_wages_write.
    + repeat split; intros r.
      * by rewrite permitted_employees_write.
      * by rewrite permitted_attendance_write.
      * by rewrite permitted_wages_write.
  - intros Hnot.
    assert (Hemp : ∀ e, permitted employees_policies SELECT db uid e = true
                        ↔ owns uid e).
    { intros e. rewrite permitted_employees_SELECT, Hnot. simpl.
      apply sql_eq_spec. }
    assert (Hatt : ∀ a, permitted attendance_policies SELECT db uid a = true ↔
                        ∃ e, e ∈ employees db
                             ∧ Employee.id e = Attendance.employee_id a
                             ∧ owns uid e).
    { intros a. rewrite permitted_attendance_SELECT, Hnot. simpl.
      apply owns_employee_spec. }
    assert (Hwage : ∀ w, permitted wages_policies SELECT db uid w = true ↔
                         ∃ e, e ∈ employees db
                              ∧ Employee.id e = Wage.employee_id w
                              ∧ owns uid e).
    { intros w. rewrite permitted_wages_SELECT, Hnot. simpl.
      apply owns_employee_spec. }
    assert (Hwrite : ∀ c, c ≠ SELECT →
              (∀ e, permitted employees_policies c db uid e = false)
              ∧ (∀ a, permitted attendance_policies c db uid a = false)
              ∧ (∀ w, permitted wages_policies c db uid w = false)).
    { intros c Hc. repeat split; intros r.
      - by rewrite permitted_employees_write.
      - by rewrite permitted_attendance_write.
      - by rewrite permitted_wages_write. }
    repeat split; try (by apply Hemp); try (by apply Hatt);
      try (by apply Hwage); try (by apply Hwrite).
    + intros e He. destruct (decide (c = SELECT)) as [->|Hc].
      * apply not_true_is_false. rewrite Hemp. by apply H.
      * by apply Hwrite.
    + intros a. destruct (decide (c = SELECT)) as [->|Hc].
      * apply not_true_is_false. rewrite Hatt.
        intros (e & He & _ & Ho). by apply (H e).
      * by apply Hwrite.
    + intros w. destruct (decide (c = SELECT)) as [->|Hc].
      * apply not_true_is_false. rewrite Hwage.
        intros (e & He & _ & Ho). by apply (H e).
      * by apply Hwrite.
Qed.

Lemma policies_by_role_and_ownership_witness :
  permitted wages_policies UPDATE Sample.db0 (Some Sample.boss) Sample.w2 = true
  ∧ permitted wages_policies UPDATE Sample.db0 (Some Sample.asha) Sample.w1 = false
  ∧ (permitted wages_policies SELECT Sample.db0 (Some Sample.asha) Sample.w1 = true ↔
     ∃ e, e ∈ employees Sample.db0
          ∧ Employee.id e = Wage.employee_id Sample.w1
          ∧ owns (Some Sample.asha) e)
  ∧ permitted attendance_policies SELECT Sample.db0 (Some "u-nobody") Sample.a1
    = false.
Proof.
  pose proof (policies_by_role_and_ownership Sample.db0 (Some Sample.boss))
    as [Hboss _].
  pose proof (policies_by_role_and_ownership Sample.db0 (Some Sample.asha))
    as [_ Hasha].
  pose proof (policies_by_role_and_ownership Sample.db0 (Some "u-nobody"))
    as [_ Hnobody].
  specialize (Hboss eq_refl). specialize (Hasha eq_refl).
  specialize (Hnobody eq_refl).
  destruct Hasha as (_ & _ & Hsel & Hwrite & _).
  destruct Hnobody as (_ & _ & _ & _ & Hnone).
  split; [apply (Hboss UPDATE)|].
  split; [by apply (Hwrite UPDATE)|].
  split; [apply Hsel|].
  apply (Hnone) with (c := SELECT).
  intros e He (u & [= <-] & Hu). simpl in He.
  repeat (apply elem_of_cons in He as [->|He]; [discriminate|]).
  by apply elem_of_nil in He.
Defined.

(** ** The statistics of the reports page *)

Lemma reduce_total_sum rows :
  ReportsPage.reduce_total rows
  = sum_in_order (λ w, to_number (Wage.total_wage w)) rows.
Proof. done. Qed.

Lemma employeesPaid_Permutation l l' :
  l ≡ₚ l' →
  ReportsPage.employeesPaid (ReportsPage.calculateStats l)
  = ReportsPage.employeesPaid (ReportsPage.calculateStats l').
Proof.
  intros Hperm. unfold ReportsPage.calculateStats.
  cbn [ReportsPage.employeesPaid].
  assert (filter (λ w, Wage.paid w) l ≡ₚ filter (λ w, Wage.paid w) l') as Hpaid
    by (by rewrite Hperm).
  f_equal. apply list_to_set_perm_L. by rewrite Hpaid.
Qed.

(** Three paid records of 0.10, 0.20 and 0.30: in this order the total
    paid is the double 0.6000000000000001, in the opposite order it is
    0.6, and the averages differ as well. *)
Lemma reordering_changes_the_totals :
  [Sample.p3; Sample.p2; Sample.p1] ≡ₚ [Sample.p1; Sample.p2; Sample.p3]
  ∧ ReportsPage.totalPaid
      (ReportsPage.calculateStats [Sample.p3; Sample.p2; Sample.p1])
    = to_number 60
  ∧ ReportsPage.totalPaid
      (ReportsPage.calculateStats [Sample.p1; Sample.p2; Sample.p3])
    ≠ to_number 60
  ∧ ReportsPage.averageWage
      (ReportsPage.calculateStats [Sample.p1; Sample.p2; Sample.p3])
    ≠ ReportsPage.averageWage
        (ReportsPage.calculateStats [Sample.p3; Sample.p2; Sample.p1])
  ∧ ReportsPage.calculateStats [Sample.p1; Sample.p2; Sample.p3]
    ≠ ReportsPage.calculateStats [Sample.p3; Sample.p2; Sample.p1].
Proof.
  split; [|split; [|split; [|split]]].
  - apply (reverse_Permutation [Sample.p1; Sample.p2; Sample.p3]).
  - reflexivity.
  - vm_compute. discriminate.
  - vm_compute. discriminate.
  - intros H. apply (f_equal ReportsPage.totalPaid) in H.
    vm_compute in H. discriminate H.
Qed.

(** C6, as the code has it.  [calculateStats] gives four zeros on the
    empty list.  Its totals are sums of doubles taken from the first record
    to the last, so the statistics are the same for two lists that have the
    same paid records in the same order and the same pending records in the
    same order, and the number of employees paid is the same for a list and
    every permutation of it; the totals and the average of a permutation
    can differ in the last digits.  The average is the total paid divided
    by the number of paid records, and 0 when no record is paid. *)
Theorem calculateStats_properties :
  ReportsPage.calculateStats [] = ReportsPage.mkStats 0 0 0 0
  ∧ (∀ l l',
       filter (λ w, Wage.paid w) l = filter (λ w, Wage.paid w) l' →
       filter (λ w, negb (Wage.paid w)) l = filter (λ w, negb (Wage.paid w)) l' →
       ReportsPage.calculateStats l = ReportsPage.calculateStats l')
  ∧ (∀ l l', l ≡ₚ l' →
       ReportsPage.employeesPaid (ReportsPage.calculateStats l)
       = ReportsPage.employeesPaid (ReportsPage.calculateStats l'))
  ∧ (∀ l,
       let paid := filter (λ w, Wage.paid w) l in
       let pending := filter (λ w, negb (Wage.paid w)) l in
       ReportsPage.totalPaid (ReportsPage.calculateStats l)
       = sum_in_order (λ w, to_number (Wage.total_wage w)) paid
       ∧ ReportsPage.totalPending (ReportsPage.calculateStats l)
         = sum_in_order (λ w, to_number (Wage.total_wage w)) pending
       ∧ (length paid = 0%nat →
          ReportsPage.averageWage (ReportsPage.calculateStats l) = 0%float)
       ∧ (length paid ≠ 0%nat →
          ReportsPage.averageWage (ReportsPage.calculateStats l)
          = (ReportsPage.totalPaid (ReportsPage.calculateStats l)
             / number_of_Z (Z.of_nat (length paid)))%float)).
Proof.
  split; [done|]. split; [|split; [apply employeesPaid_Permutation|]].
  - intros l l' Hpaid Hpending. unfold ReportsPage.calculateStats.
    by rewrite Hpaid, Hpending.
  - intros l paid pending. unfold ReportsPage.calculateStats.
    cbn [ReportsPage.totalPaid ReportsPage.totalPending ReportsPage.averageWage].
    fold paid. fold pending.
    split; [apply reduce_total_sum|]. split; [apply reduce_total_sum|]. split.
    + by intros ->.
    + intros Hne. by destruct (length paid).
Qed.

Lemma calculateStats_properties_witness :
  ReportsPage.calculateStats [Sample.w1; Sample.p1; Sample.p2]
  = ReportsPage.calculateStats [Sample.p1; Sample.p2; Sample.w1]
  ∧ ReportsPage.employeesPaid
      (ReportsPage.calculateStats [Sample.p3; Sample.p2; Sample.p1])
    = ReportsPage.employeesPaid
        (ReportsPage.calculateStats [Sample.p1; Sample.p2; Sample.p3])
  ∧ ReportsPage.averageWage (ReportsPage.calculateStats [Sample.w1; Sample.w2])
    = (ReportsPage.totalPaid (ReportsPage.calculateStats [Sample.w1; Sample.w2])
       / number_of_Z
           (Z.of_nat (length (filter (λ w, Wage.paid w) [Sample.w1; Sample.w2]))))%float.
Proof.
  destruct calculateStats_properties as (_ & Horder & Hperm & Havg).
  split; [|split].
  - apply Horder; reflexivity.
  - apply Hperm. apply (reverse_Permutation [Sample.p1; Sample.p2; Sample.p3]).
  - apply (Havg [Sample.w1; Sample.w2]). simpl. discriminate.
Defined.

(** * Further properties *)

(** ** One attendance record a day *)

Lemma fetched_elem formData uid db a :
  a ∈ fetched formData uid db →
  a ∈ attendance db
  ∧ Attendance.employee_id a = WagesPage.employee_id formData
  ∧ (WagesPage.period_start formData ≤ Attendance.date a
     ≤ WagesPage.period_end formData)%Z.
Proof.
  unfold fetched. rewrite list_elem_of_filter. intros [Hp Ha]. split; [done|].
  apply Is_true_true, andb_true_iff in Hp as [_ Hin].
  by apply in_period_spec.
Qed.

Lemma fetched_dates_NoDup formData uid db :
  attendance_unique db →
  NoDup (Attendance.date <$> fetched formData uid db).
Proof.
  intros Huniq.
  apply (NoDup_fmap_1 (pair (WagesPage.employee_id formData))).
  rewrite <- list_fmap_compose.
  assert ((pair (WagesPage.employee_id formData) ∘ Attendance.date)
            <$> fetched formData uid db
          = (λ a, (Attendance.employee_id a, Attendance.date a))
              <$> fetched formData uid db) as ->.
  { apply list_fmap_ext. intros i a Ha. simpl.
    apply list_elem_of_lookup_2, fetched_elem in Ha as (_ & -> & _). done. }
  eapply sublist_NoDup; [exact Huniq|].
  apply fmap_sublist. unfold fetched. apply sublist_filter.
Qed.

(** X4.  With at most one attendance record per employee and date, the
    loop of [calculateWage] runs over at most as many records as the period
    has days, and over none when the period is inverted. *)
Theorem fetched_at_most_one_a_day formData uid db :
  attendance_unique db →
  (length (fetched formData uid db)
   ≤ Z.to_nat (WagesPage.period_end formData
               - WagesPage.period_start formData + 1))%nat.
Proof.
  intros Huniq.
  rewrite <- (length_fmap Attendance.date).
  rewrite <- (length_seqZ (WagesPage.period_start formData)).
  apply submseteq_length, NoDup_submseteq.
  - by apply fetched_dates_NoDup.
  - intros d Hd. apply list_elem_of_fmap in Hd as (a & -> & Ha).
    apply fetched_elem in Ha as (_ & _ & Hlo & Hhi).
    apply elem_of_seqZ. lia.
Qed.

Lemma fetched_at_most_one_a_day_witness :
  (length (fetched (WagesPage.mkForm "e1" 10 11 Wage.weekly)
             (Some Sample.boss) Sample.db0) ≤ 2)%nat.
Proof.
  apply (fetched_at_most_one_a_day (WagesPage.mkForm "e1" 10 11 Wage.weekly)
           (Some Sample.boss) Sample.db0).
  unfold attendance_unique. compute_done.
Defined.

Lemma attendance_conflict_false new rows :
  attendance_conflict new rows = false →
  (Attendance.employee_id new, Attendance.date new)
  ∉ (λ a, (Attendance.employee_id a, Attendance.date a)) <$> rows.
Proof.
  intros Hno Hin. apply list_elem_of_fmap in Hin as (a & [= H1 H2] & Ha).
  assert (attendance_conflict new rows = true) as Hyes; [|congruence].
  apply attendance_conflict_spec. by exists a.
Qed.

(** [handleSubmit] changes the database only when it succeeds. *)
Lemma handleSubmit_outcome formData uid now gen_random_uuid db :
  let r := AttendancePage.handleSubmit formData uid now gen_random_uuid db in
  (∃ msg, r = (db, toast_error msg))
  ∨ r = (with_attendance db
           (attendance db ++
            [new_attendance now gen_random_uuid
               (AttendancePage.attendanceData formData)]),
         toast_success "Attendance marked successfully").
Proof.
  intros r. subst r. rewrite handleSubmit_cases. cbv zeta.
  destruct (_ || _); [by eauto|].
  destruct (negb (has_role db uid AppRole.admin)); [by eauto|].
  destruct (attendance_conflict _ (attendance db)); [by eauto|].
  destruct (negb (employee_exists db (AttendancePage.employee_id formData)));
    by eauto.
Qed.

(** X5.  The attendance page keeps the attendance table free of two
    records for one employee and date: whoever submits whatever form, a
    table without such a pair is followed by a table without one. *)
Theorem handleSubmit_keeps_attendance_unique
    formData uid now gen_random_uuid db :
  attendance_unique db →
  attendance_unique
    (AttendancePage.handleSubmit formData uid now gen_random_uuid db).1.
Proof.
  intros Huniq.
  destruct (AttendancePage.handleSubmit formData uid now gen_random_uuid db)
    as [db1 [msg|msg]] eqn:Hrun.
  - destruct (handleSubmit_outcome formData uid now gen_random_uuid db)
      as [[msg' H]|H]; rewrite Hrun in H; by simplify_eq.
  - apply handleSubmit_success in Hrun as (_ & _ & Hconflict & _ & ->).
    unfold attendance_unique. simpl. rewrite fmap_app. simpl.
    apply NoDup_app. split; [done|]. split; [|apply NoDup_singleton].
    intros p Hp Hnew. apply list_elem_of_singleton in Hnew as ->.
    by apply attendance_conflict_false in Hconflict.
Qed.

Lemma handleSubmit_keeps_attendance_unique_witness :
  attendance_unique
    (AttendancePage.handleSubmit
       (AttendancePage.mkForm "e2" 11 Attendance.present 0 0 "")
       (Some Sample.boss) 8 "a5" Sample.db0).1.
Proof.
  apply handleSubmit_keeps_attendance_unique.
  unfold attendance_unique. compute_done.
Defined.

Lemma fetched_with_attendance_snoc formData uid db new :
  has_role db uid AppRole.admin = true →
  Attendance.employee_id new = WagesPage.employee_id formData →
  (WagesPage.period_start formData ≤ Attendance.date new
   ≤ WagesPage.period_end formData)%Z →
  fetched formData uid (with_attendance db (attendance db ++ [new]))
  = fetched formData uid db ++ [new].
Proof.
  intros Hadmin Hemp Hdate.
  change (fetched formData uid (with_attendance db (attendance db ++ [new])))
    with (filter
            (λ a, permitted attendance_policies SELECT db uid a
                  && WagesPage.in_period formData a)
            (attendance db ++ [new])).
  rewrite filter_app. unfold fetched. f_equal.
  rewrite filter_cons, decide_True; [done|].
  apply Is_true_true, andb_true_iff. split.
  - by rewrite permitted_attendance_SELECT, Hadmin.
  - by apply in_period_spec.
Qed.

(** X6.  A recorded day is read by the next calculation.  After the
    attendance page stored a record for an employee and a day of the
    period, the loop of [calculateWage] for that employee and period runs
    over the records it would have run over before and over the new one,
    which carries the status of the form and its hours and advance as their
    columns hold them. *)
Theorem recorded_day_is_fetched aform wform uid now gen_random_uuid db db1 :
  AttendancePage.handleSubmit aform uid now gen_random_uuid db
  = (db1, toast_success "Attendance marked successfully") →
  AttendancePage.employee_id aform = WagesPage.employee_id wform →
  (WagesPage.period_start wform ≤ AttendancePage.date aform
   ≤ WagesPage.period_end wform)%Z →
  ∃ new,
    fetched wform uid db1 ≡ₚ new :: fetched wform uid db
    ∧ Attendance.id new = gen_random_uuid
    ∧ Attendance.date new = AttendancePage.date aform
    ∧ Attendance.status new = AttendancePage.status aform
    ∧ Attendance.overtime_hours new
      = nullable (to_decimal 5 (AttendancePage.overtime_hours aform))
    ∧ Attendance.advance_taken new
      = nullable (to_decimal 10 (AttendancePage.advance_taken aform)).
Proof.
  intros Hsubmit Hemp Hdate.
  apply handleSubmit_success in Hsubmit as (_ & Hadmin & _ & _ & ->).
  exists (new_attendance now gen_random_uuid (AttendancePage.attendanceData aform)).
  split; [|done].
  rewrite fetched_with_attendance_snoc by done.
  by rewrite Permutation_app_comm.
Qed.

Lemma recorded_day_is_fetched_witness :
  ∃ new,
    fetched (WagesPage.mkForm "e2" 10 12 Wage.weekly) (Some Sample.boss)
      (AttendancePage.handleSubmit
         (AttendancePage.mkForm "e2" 11 Attendance.present 0 0 "")
         (Some Sample.boss) 8 "a5" Sample.db0).1
    ≡ₚ new :: fetched (WagesPage.mkForm "e2" 10 12 Wage.weekly)
                (Some Sample.boss) Sample.db0
    ∧ Attendance.status new = Attendance.present.
Proof.
  destruct (recorded_day_is_fetched
              (AttendancePage.mkForm "e2" 11 Attendance.present 0 0 "")
              (WagesPage.mkForm "e2" 10 12 Wage.weekly)
              (Some Sample.boss) 8 "a5" Sample.db0
              (AttendancePage.handleSubmit
                 (AttendancePage.mkForm "e2" 11 Attendance.present 0 0 "")
                 (Some Sample.boss) 8 "a5" Sample.db0).1)
    as (new & Hperm & _ & _ & Hstatus & _);
    [reflexivity|reflexivity|simpl; lia|].
  exists new. by split.
Defined.

(** ** What [calculateWage] changes *)

Lemma database_eta db :
  Database (user_roles db) (employees db) (attendance db) (wages db) = db.
Proof. by destruct db. Qed.

(** [calculateWage] changes the database only when it succeeds. *)
Lemma calculateWage_outcome page_employees formData uid now gen_random_uuid db :
  let r := WagesPage.calculateWage page_employees formData uid now
             gen_random_uuid db in
  (∃ msg, r = (db, toast_error msg))
  ∨ (∃ employee,
       find (λ e, bool_decide (Employee.id e = WagesPage.employee_id formData))
         page_employees = Some employee
       ∧ insert_wages uid now gen_random_uuid
           (WagesPage.wage_values formData
              (WagesPage.accumulate employee (fetched formData uid db))) db
         = inr r.1
       ∧ r = (with_wages db
                (wages db ++
                 [new_wage now gen_random_uuid
                    (WagesPage.wage_values formData
                       (WagesPage.accumulate employee (fetched formData uid db)))]),
              toast_success "Wage calculated successfully")).
Proof.
  intros r. subst r. rewrite calculateWage_cases.
  destruct (find _ page_employees) as [employee|]; [|by eauto].
  destruct (insert_wages _ _ _ _ _) as [error|db'] eqn:Hinsert; [by eauto|].
  right. exists employee. split; [done|]. split; [done|].
  by apply insert_wages_inr in Hinsert as (_ & _ & _ & _ & _ & ->).
Qed.

(** X7.  [calculateWage] succeeds exactly when the employee of the form
    is among the employees of the page, each of the four amounts fits its
    [DECIMAL(10, 2)] column, the caller has the admin role, base wage and
    total are numbers, and the employee is still in the table; in every
    other case it shows an error toast and leaves the database as it was.
    Two present days at a daily wage of 99999999.99 are such a case: the
    base wage does not fit, and the page shows "numeric field overflow". *)
Theorem calculateWage_succeeds_iff
    page_employees formData uid now gen_random_uuid db :
  let r := WagesPage.calculateWage page_employees formData uid now
             gen_random_uuid db in
  (r.2 = toast_success "Wage calculated successfully" ↔
   ∃ employee,
     find (λ e, bool_decide (Employee.id e = WagesPage.employee_id formData))
       page_employees = Some employee
     ∧ let v := WagesPage.wage_values formData
                  (WagesPage.accumulate employee (fetched formData uid db)) in
       wage_fits v
       ∧ has_role db uid AppRole.admin = true
       ∧ is_null (to_decimal 10 (WageInsert.base_wage v)) = false
       ∧ is_null (to_decimal 10 (WageInsert.total_wage v)) = false
       ∧ ∃ e, e ∈ employees db ∧ Employee.id e = WagesPage.employee_id formData)
  ∧ (r.2 ≠ toast_success "Wage calculated successfully" →
     r.1 = db ∧ ∃ msg, r.2 = toast_error msg).
Proof.
  intros r. subst r. split.
  - rewrite calculateWage_cases.
    destruct (find _ page_employees) as [employee|];
      [|split; [done|by intros (? & ? & _)]].
    destruct (insert_wages _ _ _ _ _) as [error|db'] eqn:Hinsert.
    + split; [done|]. intros (employee' & [= <-] & Hfits & Hadmin & Hb & Ht & He).
      apply employee_exists_spec in He.
      assert (insert_wages uid now gen_random_uuid
                (WagesPage.wage_values formData
                   (WagesPage.accumulate employee (fetched formData uid db))) db
              = inr (with_wages db
                       (wages db ++
                        [new_wage now gen_random_uuid
                           (WagesPage.wage_values formData
                              (WagesPage.accumulate employee
                                 (fetched formData uid db)))]))) as Hok.
      { by apply insert_wages_inr. }
      congruence.
    + split; [|done]. intros _. exists employee. split; [done|].
      apply insert_wages_inr in Hinsert as (Hfits & Hadmin & Hb & Ht & He & _).
      apply employee_exists_spec in He. done.
  - intros Hfail.
    destruct (calculateWage_outcome page_employees formData uid now
                gen_random_uuid db) as [[msg ->]|(employee & _ & _ & Hr)].
    + split; [done|]. by exists msg.
    + by rewrite Hr in Hfail.
Qed.

Lemma calculateWage_succeeds_iff_witness :
  let r := WagesPage.calculateWage [Sample.e1; Sample.e2; Sample.e4]
             (WagesPage.mkForm "e4" 10 12 Wage.weekly) (Some Sample.boss) 7 "w3"
             Sample.db2 in
  r = (Sample.db2, toast_error "numeric field overflow")
  ∧ r.1 = Sample.db2 ∧ ∃ msg, r.2 = toast_error msg.
Proof.
  split; [reflexivity|].
  apply (proj2 (calculateWage_succeeds_iff [Sample.e1; Sample.e2; Sample.e4]
                  (WagesPage.mkForm "e4" 10 12 Wage.weekly) (Some Sample.boss)
                  7 "w3" Sample.db2)).
  vm_compute. discriminate.
Defined.

(** X8.  [calculateWage] only ever adds: in every case roles, employees
    and attendance are as before, the wage records that existed are as
    before and in place, and at most one record is appended, which is
    unpaid and belongs to the employee and period of the form. *)
Theorem calculateWage_only_appends
    page_employees formData uid now gen_random_uuid db :
  let db' := (WagesPage.calculateWage page_employees formData uid now
                gen_random_uuid db).1 in
  user_roles db' = user_roles db
  ∧ employees db' = employees db
  ∧ attendance db' = attendance db
  ∧ (wages db' = wages db
     ∨ ∃ w, wages db' = wages db ++ [w]
            ∧ Wage.paid w = false
            ∧ Wage.paid_at w = None
            ∧ Wage.employee_id w = WagesPage.employee_id formData
            ∧ Wage.period_start w = WagesPage.period_start formData
            ∧ Wage.period_end w = WagesPage.period_end formData).
Proof.
  intros db'. subst db'.
  destruct (calculateWage_outcome page_employees formData uid now
              gen_random_uuid db) as [[msg ->]|(employee & _ & _ & ->)].
  - by auto.
  - repeat split. right. by eexists.
Qed.




(** ** What [markAsPaid] changes *)

Lemma with_wages_same db : with_wages db (wages db) = db.
Proof. by destruct db. Qed.

(** X10.  [markAsPaid] reports success whatever happens.  When the caller
    has no admin role, or no wage record has the id, it shows "Marked as
    paid" and the database is exactly as before. *)
Theorem markAsPaid_without_effect id uid new_Date now db :
  has_role db uid AppRole.admin = false
  ∨ (∀ w, w ∈ wages db → Wage.id w ≠ id) →
  WagesPage.markAsPaid id uid new_Date now db
  = (db, toast_success "Marked as paid").
Proof.
  intros Hnone. rewrite markAsPaid_cases. f_equal.
  rewrite <- (with_wages_same db) at 3. f_equal.
  rewrite <- (list_fmap_id (wages db)) at 2.
  apply list_fmap_ext. intros i w Hw. simpl.
  destruct Hnone as [-> | Hnone]; [done|].
  rewrite bool_decide_false, andb_false_r; [done|].
  by apply Hnone, list_elem_of_lookup_2 with i.
Qed.

Lemma markAsPaid_without_effect_witness :
  WagesPage.markAsPaid "w1" (Some Sample.asha) 20 21 Sample.db0
  = (Sample.db0, toast_success "Marked as paid")
  ∧ WagesPage.markAsPaid "w9" (Some Sample.boss) 20 21 Sample.db0
    = (Sample.db0, toast_success "Marked as paid").
Proof.
  split; apply markAsPaid_without_effect.
  - left. reflexivity.
  - right. intros w Hw. simpl in Hw.
    repeat (apply elem_of_cons in Hw as [->|Hw]; [discriminate|]).
    by apply elem_of_nil in Hw.
Defined.

(** X11.  For every caller and every id, [markAsPaid] leaves every wage
    record at its place with its id, employee, period, calculation type
    and amounts, and a record that was paid is still paid: there is no way
    back to unpaid. *)
Theorem markAsPaid_keeps_amounts id uid new_Date now db i w :
  wages db !! i = Some w →
  ∃ w', wages (WagesPage.markAsPaid id uid new_Date now db).1 !! i = Some w'
        ∧ Wage.id w' = Wage.id w
        ∧ Wage.employee_id w' = Wage.employee_id w
        ∧ Wage.period_start w' = Wage.period_start w
        ∧ Wage.period_end w' = Wage.period_end w
        ∧ Wage.calculation_type w' = Wage.calculation_type w
        ∧ Wage.base_wage w' = Wage.base_wage w
        ∧ Wage.overtime_amount w' = Wage.overtime_amount w
        ∧ Wage.advance_deductions w' = Wage.advance_deductions w
        ∧ Wage.total_wage w' = Wage.total_wage w
        ∧ (Wage.paid w = true → Wage.paid w' = true).
Proof.
  intros Hw. eexists. split; [by apply markAsPaid_lookup|].
  by destruct (has_role db uid AppRole.admin && bool_decide (Wage.id w = id)).
Qed.

Lemma markAsPaid_keeps_amounts_witness :
  ∃ w', wages (WagesPage.markAsPaid "w1" (Some Sample.boss) 20 21 Sample.db0).1
          !! 1%nat = Some w'
        ∧ Wage.total_wage w' = Wage.total_wage Sample.w2
        ∧ (Wage.paid Sample.w2 = true → Wage.paid w' = true).
Proof.
  destruct (markAsPaid_keeps_amounts "w1" (Some Sample.boss) 20 21 Sample.db0
              1%nat Sample.w2) as (w' & Hw' & H); [reflexivity|].
  exists w'. split; [exact Hw'|]. split; apply H.
Defined.

(** X12.  [paid_at] goes with [paid]: when [paid_at] is filled in exactly
    on the paid wage records, this is still so after [calculateWage] and
    after [markAsPaid], whoever calls them with whatever arguments. *)
Theorem paid_at_recorded_kept
    page_employees formData id uid new_Date now gen_random_uuid db :
  paid_at_recorded db →
  paid_at_recorded
    (WagesPage.calculateWage page_employees formData uid now gen_random_uuid db).1
  ∧ paid_at_recorded (WagesPage.markAsPaid id uid new_Date now db).1.
Proof.
  intros Hinv. split.
  - destruct (calculateWage_outcome page_employees formData uid now
                gen_random_uuid db) as [[msg ->]|(employee & _ & _ & ->)]; [done|].
    intros w Hw. simpl in Hw. apply elem_of_app in Hw as [Hw|Hw].
    + by apply Hinv.
    + apply list_elem_of_singleton in Hw as ->. simpl.
      split; [done|]. by intros [? ?].
  - rewrite markAsPaid_cases. intros w' Hw'. simpl in Hw'.
    apply list_elem_of_fmap in Hw' as (w & -> & Hw).
    destruct (has_role db uid AppRole.admin && bool_decide (Wage.id w = id)).
    + simpl. split; [by eexists|done].
    + by apply Hinv.
Qed.

Lemma paid_at_recorded_kept_witness :
  paid_at_recorded
    (WagesPage.markAsPaid "w1" (Some Sample.boss) 20 21 Sample.db0).1.
Proof.
  apply (paid_at_recorded_kept [] (WagesPage.mkForm "e1" 10 12 Wage.weekly)
           "w1" (Some Sample.boss) 20 21 "w3" Sample.db0).
  intros w Hw. simpl in Hw.
  repeat (apply elem_of_cons in Hw as [->|Hw];
          [simpl; split; [try done; by eexists|try done; by intros [? ?]]|]).
  by apply elem_of_nil in Hw.
Defined.

(** ** More on the statistics *)

Lemma size_list_to_set_le (l : list string) :
  (size (list_to_set l : gset string) ≤ length l)%nat.
Proof.
  induction l as [|x l IH]; [done|].
  rewrite list_to_set_cons. cbn [length].
  - rewrite size_union_alt, size_singleton.
    assert (list_to_set l ∖ {[x]} ⊆ (list_to_set l : gset string)) as Hsub.
    { intros y Hy. by apply elem_of_difference in Hy as [? _]. }
    apply subseteq_size in Hsub. lia.
Qed.

(** X15.  "Employees Paid" counts employees, not payments: it is the
    number of distinct employee ids among the paid records, so it is at
    most the number of paid records, equal to it when the paid records
    belong to different employees, and 0 exactly when no record is paid. *)
Theorem employeesPaid_counts_distinct l :
  let paid := filter (λ w, Wage.paid w) l in
  let n := ReportsPage.employeesPaid (ReportsPage.calculateStats l) in
  (∀ employee_id,
     employee_id ∈ (list_to_set (Wage.employee_id <$> paid) : gset uuid) ↔
     ∃ w, w ∈ l ∧ Wage.paid w = true ∧ Wage.employee_id w = employee_id)
  ∧ n = size (list_to_set (Wage.employee_id <$> paid) : gset uuid)
  ∧ (n ≤ length paid)%nat
  ∧ (NoDup (Wage.employee_id <$> paid) → n = length paid)
  ∧ (n = 0%nat ↔ paid = []).
Proof.
  intros paid n. subst n. unfold ReportsPage.calculateStats; simpl. fold paid.
  split; [|split; [done|split; [|split]]].
  - intros employee_id. rewrite elem_of_list_to_set, list_elem_of_fmap. split.
    + intros (w & -> & Hw). apply list_elem_of_filter in Hw as [Hp Hw].
      exists w. split; [done|]. split; [by apply Is_true_true|done].
    + intros (w & Hw & Hp & <-). exists w. split; [done|].
      apply list_elem_of_filter. split; [by apply Is_true_true|done].
  - rewrite <- (length_fmap Wage.employee_id paid). apply size_list_to_set_le.
  - intros Hnd. rewrite size_list_to_set by done. by rewrite length_fmap.
  - split.
    + intros Hzero. apply size_empty_inv in Hzero.
      destruct paid as [|w paid']; [done|]. exfalso.
      assert (Wage.employee_id w
              ∈ (list_to_set (Wage.employee_id <$> w :: paid') : gset uuid))
        as Hin by (rewrite fmap_cons; set_solver).
      rewrite Hzero in Hin. set_solver.
    + intros ->. done.
Qed.

Lemma employeesPaid_counts_distinct_witness :
  ReportsPage.employeesPaid
    (ReportsPage.calculateStats [Sample.w1; Sample.w2])
  = length (filter (λ w, Wage.paid w) [Sample.w1; Sample.w2]).
Proof.
  apply (employeesPaid_counts_distinct [Sample.w1; Sample.w2]).
  compute_done.
Defined.

(** ** More on the policies *)

(** X17.  Roles cannot be changed through the client.  On [user_roles]
    no principal, with or without the admin role, is permitted [INSERT],
    [UPDATE] or [DELETE] on any row; [SELECT] is permitted on exactly the
    rows of the principal itself and, for an administrator, on all rows. *)
Theorem roles_are_read_only db uid r :
  (∀ c, c ≠ SELECT → permitted user_roles_policies c db uid r = false)
  ∧ (permitted user_roles_policies SELECT db uid r = true ↔
     uid = Some (UserRole.user_id r) ∨ has_role db uid AppRole.admin = true).
Proof.
  split.
  - intros c Hc. by destruct c.
  - unfold permitted; simpl. rewrite orb_false_r, orb_true_iff.
    destruct uid as [u|]; simpl; [|by intuition].
    rewrite bool_decide_eq_true. split; intros [H|H]; auto.
    + left. by rewrite H.
    + left. by injection H.
Qed.

Lemma roles_are_read_only_witness :
  permitted user_roles_policies INSERT Sample.db0 (Some Sample.boss)
    (UserRole.mk "r3" Sample.asha AppRole.admin 9) = false.
Proof.
  apply (roles_are_read_only Sample.db0 (Some Sample.boss)). discriminate.
Defined.

Lemma NoDup_fmap_eq {A} (key : A → string) l x y :
  NoDup (key <$> l) → x ∈ l → y ∈ l → key x = key y → x = y.
Proof.
  induction l as [|z l IH]; intros Hnd Hx Hy Heq; [by apply elem_of_nil in Hx|].
  rewrite fmap_cons in Hnd. apply NoDup_cons in Hnd as [Hz Hnd].
  apply elem_of_cons in Hx as [->|Hx]; apply elem_of_cons in Hy as [->|Hy].
  - done.
  - exfalso. apply Hz. rewrite Heq. by apply list_elem_of_fmap_2.
  - exfalso. apply Hz. rewrite <- Heq. by apply list_elem_of_fmap_2.
  - by apply IH.
Qed.

(** X18.  Whoever may read a wage record or an attendance record may read
    the employee it belongs to: with distinct employee ids, the employee
    row with the [employee_id] of a record a principal is permitted to
    [SELECT] is a row the principal is permitted to [SELECT] too. *)
Theorem readable_record_has_readable_employee db uid e :
  NoDup (Employee.id <$> employees db) →
  e ∈ employees db →
  (∀ w, Wage.employee_id w = Employee.id e →
        permitted wages_policies SELECT db uid w = true →
        permitted employees_policies SELECT db uid e = true)
  ∧ (∀ a, Attendance.employee_id a = Employee.id e →
          permitted attendance_policies SELECT db uid a = true →
          permitted employees_policies SELECT db uid e = true).
Proof.
  intros Hnd He.
  assert (∀ employee_id, employee_id = Employee.id e →
            has_role db uid AppRole.admin
            || owns_employee db uid employee_id = true →
            permitted employees_policies SELECT db uid e = true) as Hkey.
  { intros employee_id -> Hp. rewrite permitted_employees_SELECT.
    destruct (has_role db uid AppRole.admin); [done|]. simpl in *.
    apply owns_employee_spec in Hp as (e' & He' & Hid & u & -> & Hu).
    assert (e' = e) as -> by by apply (NoDup_fmap_eq Employee.id (employees db)).
    rewrite Hu. simpl. by apply bool_decide_eq_true. }
  split.
  - intros w Hw Hp. apply (Hkey (Wage.employee_id w)); [done|].
    by rewrite <- permitted_wages_SELECT.
  - intros a Ha Hp. apply (Hkey (Attendance.employee_id a)); [done|].
    by rewrite <- permitted_attendance_SELECT.
Qed.

Lemma readable_record_has_readable_employee_witness :
  permitted wages_policies SELECT Sample.db0 (Some Sample.asha) Sample.w1 = true
  ∧ permitted employees_policies SELECT Sample.db0 (Some Sample.asha) Sample.e1
    = true.
Proof.
  assert (permitted wages_policies SELECT Sample.db0 (Some Sample.asha) Sample.w1
          = true) as Hw by reflexivity.
  split; [exact Hw|].
  refine (proj1 (readable_record_has_readable_employee Sample.db0
                   (Some Sample.asha) Sample.e1 _ _) Sample.w1 _ Hw).
  - compute_done.
  - by constructor.
  - reflexivity.
Defined.

(** ** The employees page *)

Lemma filter_ext_in {A} (P Q : A → Prop)
    `{!∀ x, Decision (P x)} `{!∀ x, Decision (Q x)} (l : list A) :
  (∀ x, x ∈ l → P x ↔ Q x) → filter P l = filter Q l.
Proof.
  induction l as [|x l IH]; intros Hext; [done|].
  rewrite !filter_cons.
  assert (filter P l = filter Q l) as ->.
  { apply IH. intros y Hy. apply Hext. by constructor. }
  destruct (decide (P x)) as [HP|HP], (decide (Q x)) as [HQ|HQ]; try done;
    exfalso; apply (Hext x) in HP || apply (Hext x) in HQ; try done;
    by constructor.
Qed.

Lemma filter_all {A} (P : A → Prop) `{!∀ x, Decision (P x)} (l : list A) :
  (∀ x, x ∈ l → P x) → filter P l = l.
Proof.
  induction l as [|x l IH]; intros Hall; [done|].
  rewrite filter_cons, decide_True by (apply Hall; constructor).
  f_equal. apply IH. intros y Hy. apply Hall. by constructor.
Qed.

Lemma filter_none {A} (P : A → Prop) `{!∀ x, Decision (P x)} (l : list A) :
  (∀ x, x ∈ l → ¬ P x) → filter P l = [].
Proof.
  induction l as [|x l IH]; intros Hnone; [done|].
  rewrite filter_cons, decide_False by (apply Hnone; constructor).
  apply IH. intros y Hy. apply Hnone. by constructor.
Qed.

Lemma employees_target_write c uid where_ db e :
  c ≠ SELECT →
  employees_target c uid where_ db e = has_role db uid AppRole.admin && where_ e.
Proof.
  intros Hc. unfold employees_target.
  rewrite permitted_employees_SELECT, permitted_employees_write by done.
  destruct (has_role db uid AppRole.admin); [done|].
  by destruct (sql_eq uid (Employee.user_id e)).
Qed.

(** An [UPDATE] on [employees], check by check: for an administrator the
    new rows pass the policy, for anyone else no row is reached. *)
Lemma update_employees_cases uid now v where_ db :
  update_employees uid now v where_ db =
  if employee_overflows v then inl numeric_field_overflow
  else
    match employee_null v with
    | Some column =>
        if existsb (λ e, has_role db uid AppRole.admin && where_ e) (employees db)
        then inl (not_null_violation column "employees")
        else inr db
    | None =>
        inr (with_employees db
               ((λ e, if has_role db uid AppRole.admin && where_ e
                      then updated_employee now v e else e)
                  <$> employees db))
    end.
Proof.
  unfold update_employees.
  destruct (employee_overflows v); [done|].
  assert (forallb
            (λ e, negb (employees_target UPDATE uid where_ db e)
                  || permitted employees_policies UPDATE db uid
                       (updated_employee now v e))
            (employees db) = true) as ->.
  { apply forallb_forall. intros e _.
    rewrite employees_target_write, permitted_employees_write by done.
    by destruct (has_role db uid AppRole.admin), (where_ e). }
  cbn [negb].
  destruct (employee_null v) as [column|].
  - assert (existsb (employees_target UPDATE uid where_ db) (employees db)
            = existsb (λ e, has_role db uid AppRole.admin && where_ e)
                (employees db)) as ->; [|done].
    induction (employees db) as [|e l IH]; [done|]. cbn [existsb].
    by rewrite IH, employees_target_write.
  - do 2 f_equal. apply list_fmap_ext. intros _ e _.
    by rewrite employees_target_write.
Qed.

Lemma with_employees_same db : with_employees db (employees db) = db.
Proof. by destruct db. Qed.

(** [handleDelete] by an administrator who confirms, for the id of an
    employee of the table. *)
Lemma delete_employees_admin uid id db e :
  has_role db uid AppRole.admin = true →
  e ∈ employees db →
  Employee.id e = id →
  delete_employees uid (λ e, bool_decide (Employee.id e = id)) db
  = inr {| user_roles := user_roles db;
           employees := filter (λ e, Employee.id e ≠ id) (employees db);
           attendance := filter (λ a, Attendance.employee_id a ≠ id) (attendance db);
           wages := filter (λ w, Wage.employee_id w ≠ id) (wages db) |}.
Proof.
  intros Hadmin He Hid. unfold delete_employees. cbv zeta.
  assert (∀ x, x ∈ Employee.id
                     <$> filter
                           (λ e, employees_target DELETE uid
                                   (λ e, bool_decide (Employee.id e = id)) db e)
                           (employees db)
               ↔ x = id) as Hids.
  { intros x. rewrite list_elem_of_fmap. split.
    - intros (e' & -> & He'). apply list_elem_of_filter in He' as [Ht _].
      rewrite employees_target_write, Hadmin in Ht by done.
      by apply bool_decide_unpack in Ht.
    - intros ->. exists e. split; [done|]. apply list_elem_of_filter.
      split; [|done]. rewrite employees_target_write, Hadmin by done.
      by apply bool_decide_pack. }
  do 2 f_equal.
  - apply filter_ext_in. intros e' _.
    rewrite employees_target_write, Hadmin by done. simpl.
    rewrite negb_True, bool_decide_spec. done.
  - apply filter_ext_in. intros a _. by rewrite Hids.
  - apply filter_ext_in. intros w _. by rewrite Hids.
Qed.

(** X19.  Deleting an employee takes its records along.  When an
    administrator confirms the deletion of an employee of the table, the
    page reports success; the employee rows with that id, and every
    attendance and wage record of that employee, are gone; every other row
    of the three tables is kept, in its order; the roles are as before. *)
Theorem handleDelete_cascades id uid db e :
  has_role db uid AppRole.admin = true →
  e ∈ employees db →
  Employee.id e = id →
  let r := EmployeesPage.handleDelete true id uid db in
  r.2 = Some (toast_success "Employee deleted successfully")
  ∧ employees r.1 = filter (λ e, Employee.id e ≠ id) (employees db)
  ∧ attendance r.1 = filter (λ a, Attendance.employee_id a ≠ id) (attendance db)
  ∧ wages r.1 = filter (λ w, Wage.employee_id w ≠ id) (wages db)
  ∧ user_roles r.1 = user_roles db
  ∧ (∀ a, a ∈ attendance r.1 → Attendance.employee_id a ≠ id)
  ∧ (∀ w, w ∈ wages r.1 → Wage.employee_id w ≠ id).
Proof.
  intros Hadmin He Hid r. subst r. unfold EmployeesPage.handleDelete.
  cbn [negb]. rewrite (delete_employees_admin uid id db e) by done. simpl.
  repeat split.
  - intros a Ha. by apply list_elem_of_filter in Ha as [? _].
  - intros w Hw. by apply list_elem_of_filter in Hw as [? _].
Qed.

Lemma handleDelete_cascades_witness :
  let r := EmployeesPage.handleDelete true "e1" (Some Sample.boss) Sample.db0 in
  employees r.1 = [Sample.e2]
  ∧ attendance r.1 = [Sample.a4]
  ∧ wages r.1 = [Sample.w2].
Proof.
  destruct (handleDelete_cascades "e1" (Some Sample.boss) Sample.db0 Sample.e1)
    as (_ & He & Ha & Hw & _); [reflexivity|by constructor|reflexivity|].
  intros r. subst r. rewrite He, Ha, Hw. repeat split.
Defined.

(** X20.  A deletion that is declined changes nothing and shows no toast.
    A deletion by a caller without the admin role, or for an id no
    employee has, changes nothing either, and the page still reports
    "Employee deleted successfully". *)
Theorem handleDelete_without_effect confirm id uid db :
  (confirm = false →
   EmployeesPage.handleDelete confirm id uid db = (db, None))
  ∧ (confirm = true →
     has_role db uid AppRole.admin = false
     ∨ (∀ e, e ∈ employees db → Employee.id e ≠ id) →
     EmployeesPage.handleDelete confirm id uid db
     = (db, Some (toast_success "Employee deleted successfully"))).
Proof.
  split; intros ->; [done|]. intros Hnone.
  unfold EmployeesPage.handleDelete, delete_employees. cbn [negb]. cbv zeta.
  assert (∀ e, e ∈ employees db →
            employees_target DELETE uid
              (λ e, bool_decide (Employee.id e = id)) db e = false) as Hno.
  { intros e He. rewrite employees_target_write by done.
    destruct Hnone as [-> | Hnone]; [done|].
    rewrite bool_decide_false, andb_false_r; [done|]. by apply Hnone. }
  assert (filter
            (λ e, employees_target DELETE uid
                    (λ e, bool_decide (Employee.id e = id)) db e)
            (employees db) = []) as ->.
  { apply filter_none. intros e He. rewrite Hno by done. by intros []. }
  simpl. rewrite !filter_all.
  - by destruct db.
  - intros w _. apply not_elem_of_nil.
  - intros a _. apply not_elem_of_nil.
  - intros e He. by rewrite Hno.
Qed.

Lemma handleDelete_without_effect_witness :
  EmployeesPage.handleDelete false "e1" (Some Sample.boss) Sample.db0
  = (Sample.db0, None)
  ∧ EmployeesPage.handleDelete true "e1" (Some Sample.asha) Sample.db0
    = (Sample.db0, Some (toast_success "Employee deleted successfully")).
Proof.
  split.
  - by apply (handleDelete_without_effect false "e1" (Some Sample.boss) Sample.db0).
  - apply (handleDelete_without_effect true "e1" (Some Sample.asha) Sample.db0);
      [reflexivity|]. left. reflexivity.
Defined.

Lemma employee_null_None v :
  employee_null v = None ↔
  is_null (to_decimal 10 (EmployeeValues.daily_wage v)) = false
  ∧ is_null (to_decimal 10 (EmployeeValues.overtime_rate v)) = false
  ∧ is_null (to_decimal 10 (EmployeeValues.half_day_rate v)) = false.
Proof.
  unfold employee_null.
  destruct (is_null (to_decimal 10 (EmployeeValues.daily_wage v)));
    [intuition congruence|].
  destruct (is_null (to_decimal 10 (EmployeeValues.overtime_rate v)));
    [intuition congruence|].
  destruct (is_null (to_decimal 10 (EmployeeValues.half_day_rate v)));
    intuition congruence.
Qed.

(** An amount that fits its column and is a number is stored as the
    value the column rounds it to. *)
Lemma to_decimal_stored precision x :
  overflows (to_decimal precision x) = false →
  is_null (to_decimal precision x) = false →
  to_decimal precision x = numeric_value (not_null (to_decimal precision x)).
Proof. by destruct (to_decimal precision x). Qed.

Lemma employee_overflows_false v :
  employee_overflows v = false ↔
  overflows (to_decimal 10 (EmployeeValues.daily_wage v)) = false
  ∧ overflows (to_decimal 10 (EmployeeValues.overtime_rate v)) = false
  ∧ overflows (to_decimal 10 (EmployeeValues.half_day_rate v)) = false.
Proof.
  unfold employee_overflows. rewrite !orb_false_iff. tauto.
Qed.

(** [handleSubmit] for a new employee, case by case. *)
Lemma handleSubmit_add_cases formData uid now gen_random_uuid db :
  EmployeesPage.handleSubmit None formData uid now gen_random_uuid db =
  if employee_overflows (EmployeesPage.employeeData formData)
  then (db, toast_error "Error adding employee")
  else if negb (has_role db uid AppRole.admin)
  then (db, toast_error "Error adding employee")
  else
    match employee_null (EmployeesPage.employeeData formData) with
    | Some _ => (db, toast_error "Error adding employee")
    | None =>
        (with_employees db
           (employees db ++
            [new_employee now gen_random_uuid (EmployeesPage.employeeData formData)]),
         toast_success "Employee added successfully")
    end.
Proof.
  unfold EmployeesPage.handleSubmit, insert_employees.
  rewrite permitted_employees_write by done.
  destruct (employee_overflows _); [done|].
  destruct (negb (has_role db uid AppRole.admin)); [done|].
  by destruct (employee_null _).
Qed.

(** X21.  Only an administrator can add an employee, the amounts must
    fit, and an added employee belongs to no login.  [handleSubmit] succeeds
    exactly when the caller has the admin role and each of the three
    amounts of the form is a number that fits [DECIMAL(10, 2)]; otherwise
    it shows "Error adding employee" and changes nothing (a daily wage of
    100000000 is such a case).  When it succeeds, one employee row is
    appended that carries the name of the form and the amounts as their
    columns round them, is active and has no [user_id]; so no principal
    without the admin role is permitted to read it. *)
Theorem handleSubmit_adds_unlinked_employee formData uid now gen_random_uuid db :
  let r := EmployeesPage.handleSubmit None formData uid now gen_random_uuid db in
  let v := EmployeesPage.employeeData formData in
  (r.2 = toast_success "Employee added successfully" ↔
   has_role db uid AppRole.admin = true
   ∧ employee_overflows v = false
   ∧ employee_null v = None)
  ∧ (r.2 ≠ toast_success "Employee added successfully" →
     r = (db, toast_error "Error adding employee"))
  ∧ (r.2 = toast_success "Employee added successfully" →
     ∃ new,
       r.1 = with_employees db (employees db ++ [new])
       ∧ Employee.id new = gen_random_uuid
       ∧ Employee.full_name new = EmployeesPage.full_name formData
       ∧ to_decimal 10 (EmployeesPage.daily_wage formData)
         = numeric_value (Employee.daily_wage new)
       ∧ to_decimal 10 (EmployeesPage.overtime_rate formData)
         = numeric_value (Employee.overtime_rate new)
       ∧ to_decimal 10 (EmployeesPage.half_day_rate formData)
         = numeric_value (Employee.half_day_rate new)
       ∧ Employee.status new = Employee.active
       ∧ Employee.user_id new = None
       ∧ ∀ other,
           has_role db other AppRole.admin = false →
           permitted employees_policies SELECT
             (with_employees db (employees db ++ [new])) other new = false).
Proof.
  intros r v. subst r. rewrite handleSubmit_add_cases. fold v.
  destruct (employee_overflows v) eqn:Hover;
    [split; [split; [done|by intros (_ & ? & _)]|split; [done|done]]|].
  destruct (has_role db uid AppRole.admin) eqn:Hadmin; cbn [negb];
    [|split; [split; [done|by intros (? & _)]|split; [done|done]]].
  destruct (employee_null v) as [column|] eqn:Hnull;
    [split; [split; [done|by intros (_ & _ & ?)]|split; [done|done]]|].
  split; [done|]. split; [done|]. intros _.
  apply employee_overflows_false in Hover as (Ho1 & Ho2 & Ho3).
  apply employee_null_None in Hnull as (Hn1 & Hn2 & Hn3).
  exists (new_employee now gen_random_uuid v).
  split; [done|]. split; [done|]. split; [done|].
  split; [by apply to_decimal_stored|].
  split; [by apply to_decimal_stored|].
  split; [by apply to_decimal_stored|].
  split; [done|]. split; [done|].
  intros other Hother. rewrite permitted_employees_SELECT.
  change (has_role (with_employees db _) other AppRole.admin)
    with (has_role db other AppRole.admin).
  rewrite Hother. simpl. by destruct other.
Qed.

Lemma handleSubmit_adds_unlinked_employee_witness :
  EmployeesPage.handleSubmit None
    (EmployeesPage.mkForm "Mina" "" "" 100000000 30 150)
    (Some Sample.boss) 9 "e3" Sample.db0
  = (Sample.db0, toast_error "Error adding employee").
Proof.
  apply (proj1 (proj2 (handleSubmit_adds_unlinked_employee
           (EmployeesPage.mkForm "Mina" "" "" 100000000 30 150)
           (Some Sample.boss) 9 "e3" Sample.db0))).
  vm_compute. discriminate.
Defined.

(** X22.  Saving an edit replaces what the form holds and nothing else.
    For an administrator and an employee row with the id being edited:
    when one of the three rates of the form does not fit [DECIMAL(10, 2)]
    or is not a number, the page shows "Error updating employee" and
    nothing changes (a rate of 100000000 is such a case); otherwise the row
    gets the name, contact and the three rates of the form, as their
    columns round them, and a new [updated_at], and its [id], [user_id],
    [status] and [created_at] stay.  In every case the rows with another
    id stay, and so do the attendance table, the roles and the wage
    records: the amounts already stored are not recomputed from the new
    rates. *)
Theorem handleSubmit_edit_frame
    editing formData uid now gen_random_uuid db i e :
  has_role db uid AppRole.admin = true →
  employees db !! i = Some e →
  Employee.id e = Employee.id editing →
  let r := EmployeesPage.handleSubmit (Some editing) formData uid now
             gen_random_uuid db in
  let v := EmployeesPage.employeeData formData in
  (employee_overflows v = true ∨ employee_null v ≠ None →
   r = (db, toast_error "Error updating employee"))
  ∧ (employee_overflows v = false → employee_null v = None →
     r.2 = toast_success "Employee updated successfully"
     ∧ ∃ e', employees r.1 !! i = Some e'
             ∧ Employee.full_name e' = EmployeesPage.full_name formData
             ∧ to_decimal 10 (EmployeesPage.daily_wage formData)
               = numeric_value (Employee.daily_wage e')
             ∧ to_decimal 10 (EmployeesPage.overtime_rate formData)
               = numeric_value (Employee.overtime_rate e')
             ∧ to_decimal 10 (EmployeesPage.half_day_rate formData)
               = numeric_value (Employee.half_day_rate e')
             ∧ Employee.email e' = EmployeeValues.email v
             ∧ Employee.phone e' = EmployeeValues.phone v
             ∧ Employee.updated_at e' = now
             ∧ Employee.id e' = Employee.id e
             ∧ Employee.user_id e' = Employee.user_id e
             ∧ Employee.status e' = Employee.status e
             ∧ Employee.created_at e' = Employee.created_at e)
  ∧ (∀ j x, employees db !! j = Some x →
            Employee.id x ≠ Employee.id editing →
            employees r.1 !! j = Some x)
  ∧ wages r.1 = wages db
  ∧ attendance r.1 = attendance db
  ∧ user_roles r.1 = user_roles db.
Proof.
  intros Hadmin He Hid r v. subst r.
  unfold EmployeesPage.handleSubmit. rewrite update_employees_cases. fold v.
  rewrite Hadmin. cbn [andb].
  assert (existsb (λ e0, bool_decide (Employee.id e0 = Employee.id editing))
            (employees db) = true) as Hreached.
  { apply existsb_exists. exists e. split.
    - apply list_elem_of_In. by apply list_elem_of_lookup_2 with i.
    - by apply bool_decide_eq_true. }
  destruct (employee_overflows v) eqn:Hover.
  { split; [done|]. split; [done|]. done. }
  destruct (employee_null v) as [column|] eqn:Hnull.
  { rewrite Hreached. split; [done|]. split; [done|]. done. }
  split; [by intros [?|?]|]. split; [|split; [|done]].
  - intros _ _. split; [done|].
    apply employee_overflows_false in Hover as (Ho1 & Ho2 & Ho3).
    apply employee_null_None in Hnull as (Hn1 & Hn2 & Hn3).
    exists (updated_employee now v e). split.
    + cbn [fst employees with_employees]. rewrite list_lookup_fmap, He.
      cbn [fmap option_fmap option_map]. by rewrite bool_decide_true.
    + split; [done|].
      split; [by apply to_decimal_stored|].
      split; [by apply to_decimal_stored|].
      split; [by apply to_decimal_stored|]. done.
  - intros j x Hx Hne. cbn [fst employees with_employees].
    rewrite list_lookup_fmap, Hx. cbn [fmap option_fmap option_map].
    by rewrite bool_decide_false.
Qed.

Lemma handleSubmit_edit_frame_witness :
  let r := EmployeesPage.handleSubmit (Some Sample.e2)
             (EmployeesPage.mkForm "Ravi K" "" "555" 450 100000000 225)
             (Some Sample.boss) 9 "unused" Sample.db0 in
  r = (Sample.db0, toast_error "Error updating employee")
  ∧ wages r.1 = wages Sample.db0
  ∧ employees r.1 !! 0%nat = Some Sample.e1.
Proof.
  destruct (handleSubmit_edit_frame Sample.e2
              (EmployeesPage.mkForm "Ravi K" "" "555" 450 100000000 225)
              (Some Sample.boss) 9 "unused" Sample.db0 1%nat Sample.e2)
    as (Herror & _ & Hother & Hw & _); [reflexivity..|].
  split; [apply Herror; left; reflexivity|].
  split; [exact Hw|]. by apply Hother.
Defined.


(** Every amount from 0.00 to 10.00 is read back as stored. *)
Lemma small_amounts_read_back n :
  (0 ≤ n ≤ 1000)%Z → reads_back n = true.
Proof.
  intros Hn.
  assert (forallb reads_back (seqZ 0 1001) = true) as Hall
    by (vm_compute; reflexivity).
  rewrite forallb_forall in Hall. apply Hall.
  apply list_elem_of_In, elem_of_seqZ. lia.
Qed.



(** ** The layout *)

(** The rows the query of [checkUserRole] returns for the signed-in user. *)
Lemma checkUserRole_rows userId db r :
  r ∈ filter
        (λ r, permitted user_roles_policies SELECT db (Some userId) r
              && (bool_decide (UserRole.user_id r = userId)
                  && bool_decide (UserRole.role r = AppRole.admin)))
        (user_roles db)
  ↔ r ∈ user_roles db
    ∧ UserRole.user_id r = userId ∧ UserRole.role r = AppRole.admin.
Proof.
  rewrite list_elem_of_filter. split.
  - intros [Hp Hr]. split; [done|].
    apply Is_true_true, andb_true_iff in Hp as [_ Hp].
    apply andb_true_iff in Hp as [H1 H2].
    by apply bool_decide_eq_true in H1, H2.
  - intros (Hr & Hu & Hrole). split; [|done].
    apply Is_true_true, andb_true_iff. split.
    + unfold permitted; simpl. rewrite Hu.
      by rewrite bool_decide_true.
    + by rewrite !bool_decide_true.
Qed.

Lemma has_role_spec db userId role :
  has_role db (Some userId) role = true ↔
  ∃ r, r ∈ user_roles db ∧ UserRole.user_id r = userId ∧ UserRole.role r = role.
Proof.
  unfold has_role. rewrite existsb_exists. split.
  - intros (r & Hr & Hp). apply andb_true_iff in Hp as [H1 H2].
    simpl in H1. apply bool_decide_eq_true in H1, H2.
    exists r. by rewrite list_elem_of_In.
  - intros (r & Hr & Hu & Hrole). exists r. rewrite <- list_elem_of_In.
    split; [done|]. simpl. by rewrite !bool_decide_true.
Qed.

(** X24.  The navigation agrees with the policies.  With at most one row
    per user and role in [user_roles], [checkUserRole] for the signed-in
    user turns a fresh [isAdmin] flag into exactly [has_role(uid, 'admin')],
    the test the policies use; the layout then links to Employees and
    Attendance exactly for an administrator. *)
Theorem checkUserRole_agrees_with_has_role userId db :
  user_roles_unique db →
  let isAdmin := Layout.checkUserRole userId (Some userId) db false in
  isAdmin = has_role db (Some userId) AppRole.admin
  ∧ Layout.path <$> Layout.links isAdmin
    = if has_role db (Some userId) AppRole.admin
      then ["/"; "/employees"; "/attendance"; "/wages"; "/reports"]
      else ["/"; "/wages"; "/reports"].
Proof.
  intros Huniq isAdmin.
  assert (isAdmin = has_role db (Some userId) AppRole.admin) as ->.
  { subst isAdmin. unfold Layout.checkUserRole, Layout.select_role.
    pose proof (checkUserRole_rows userId db) as Hrows.
    destruct (filter _ (user_roles db)) as [|r1 [|r2 rows]] eqn:Hfilter; simpl.
    - symmetry. apply not_true_is_false. rewrite has_role_spec.
      intros (r & Hr). apply Hrows in Hr. by apply elem_of_nil in Hr.
    - symmetry. apply has_role_spec. exists r1. apply Hrows. by constructor.
    - exfalso.
      assert (NoDup ((λ r, (UserRole.user_id r, UserRole.role r))
                       <$> (r1 :: r2 :: rows))) as Hnd.
      { rewrite <- Hfilter. eapply sublist_NoDup; [exact Huniq|].
        apply fmap_sublist, sublist_filter. }
      rewrite !fmap_cons in Hnd. apply NoDup_cons in Hnd as [Hnotin _].
      apply Hnotin. 
      assert (r1 ∈ r1 :: r2 :: rows) as H1 by constructor.
      assert (r2 ∈ r1 :: r2 :: rows) as H2 by (constructor; constructor).
      apply Hrows in H1 as (_ & -> & ->). apply Hrows in H2 as (_ & <- & <-).
      constructor. }
  split; [done|]. by destruct (has_role db (Some userId) AppRole.admin).
Qed.

Lemma checkUserRole_agrees_with_has_role_witness :
  Layout.checkUserRole Sample.boss (Some Sample.boss) Sample.db0 false = true
  ∧ Layout.checkUserRole Sample.asha (Some Sample.asha) Sample.db0 false = false.
Proof.
  assert (user_roles_unique Sample.db0) as Huniq
    by (unfold user_roles_unique; compute_done).
  split.
  - apply (checkUserRole_agrees_with_has_role Sample.boss Sample.db0 Huniq).
  - apply (checkUserRole_agrees_with_has_role Sample.asha Sample.db0 Huniq).
Defined.

(** ** What the pages list *)

Lemma find_None_all {A} (f : A → bool) l :
  (∀ x, x ∈ l → f x = false) → find f l = None.
Proof.
  induction l as [|x l IH]; intros Hall; [done|]. simpl.
  rewrite Hall by constructor. apply IH. intros y Hy. apply Hall. by constructor.
Qed.

Lemma find_Some_any {A} (f : A → bool) l x :
  x ∈ l → f x = true → ∃ y, find f l = Some y ∧ y ∈ l ∧ f y = true.
Proof.
  induction l as [|z l IH]; intros Hx Hf; [by apply elem_of_nil in Hx|]. simpl.
  destruct (f z) eqn:Hz.
  - exists z. split; [done|]. split; [by constructor|done].
  - apply elem_of_cons in Hx as [->|Hx]; [congruence|].
    destruct (IH Hx Hf) as (y & Hy & Hin & Hfy).
    exists y. split; [done|]. split; [by constructor|done].
Qed.

Lemma select_wages_elem uid where_ db w :
  w ∈ select_wages uid where_ db ↔
  w ∈ wages db ∧ permitted wages_policies SELECT db uid w = true
  ∧ where_ w = true.
Proof.
  unfold select_wages. rewrite list_elem_of_filter, Is_true_true, andb_true_iff.
  tauto.
Qed.

Lemma select_employees_elem uid where_ db e :
  e ∈ select_employees uid where_ db ↔
  e ∈ employees db ∧ permitted employees_policies SELECT db uid e = true
  ∧ where_ e = true.
Proof.
  unfold select_employees.
  rewrite list_elem_of_filter, Is_true_true, andb_true_iff. tauto.
Qed.



(** X26.  Every wage record the wages page lists comes with its employee:
    when every wage record belongs to an employee of the table, the
    [employees] embedded in a listed record is never [null], and it is an
    employee with the id the record refers to; so [wage.employees.full_name]
    has a name to show. *)
Theorem listed_wage_has_its_employee uid db w embedded :
  wages_reference_employees db →
  (w, embedded) ∈ WagesPageData.loadWages uid db →
  ∃ e, embedded = Some e
       ∧ e ∈ employees db
       ∧ Employee.id e = Wage.employee_id w.
Proof.
  intros Hfk Hlisted. unfold WagesPageData.loadWages in Hlisted.
  apply list_elem_of_fmap in Hlisted as (w' & [= <- ->] & Hw).
  rewrite merge_sort_Permutation in Hw.
  apply select_wages_elem in Hw as (Hw & Hp & _).
  assert (∃ e, e ∈ select_employees uid (λ _, true) db
               ∧ Employee.id e = Wage.employee_id w) as (e & He & Hid).
  { rewrite permitted_wages_SELECT in Hp.
    destruct (has_role db uid AppRole.admin) eqn:Hadmin.
    - destruct (Hfk w Hw) as (e & He & Hid). exists e. split; [|done].
      apply select_employees_elem. split; [done|]. split; [|done].
      by rewrite permitted_employees_SELECT, Hadmin.
    - simpl in Hp. apply owns_employee_spec in Hp as (e & He & Hid & u & -> & Hu).
      exists e. split; [|done].
      apply select_employees_elem. split; [done|]. split; [|done].
      rewrite permitted_employees_SELECT, Hadmin, Hu. simpl.
      by apply bool_decide_eq_true. }
  destruct (find_Some_any
              (λ e, bool_decide (Employee.id e = Wage.employee_id w))
              (select_employees uid (λ _, true) db) e He)
    as (e' & Hfind & He' & Hid'); [by apply bool_decide_eq_true|].
  exists e'. split; [exact Hfind|].
  apply select_employees_elem in He' as (He' & _).
  split; [done|]. by apply bool_decide_eq_true in Hid'.
Qed.

Lemma listed_wage_has_its_employee_witness :
  ∃ e, Some Sample.e1 = Some e
       ∧ e ∈ employees Sample.db0
       ∧ Employee.id e = Wage.employee_id Sample.w1.
Proof.
  apply (listed_wage_has_its_employee (Some Sample.asha) Sample.db0
           Sample.w1 (Some Sample.e1)).
  - intros w Hw. simpl in Hw.
    apply elem_of_cons in Hw as [->|Hw];
      [exists Sample.e1; split; [by constructor|done]|].
    apply elem_of_cons in Hw as [->|Hw];
      [exists Sample.e2; split; [by do 2 constructor|done]|].
    by apply elem_of_nil in Hw.
  - apply (bool_decide_unpack _). vm_compute. exact I.
Defined.

(** X27.  Wages are calculated for active employees only.  With the
    employee list as [loadEmployees] of the wages page loaded it, a form
    whose employee was not an active employee readable by the user of the
    page gets "Employee not found", and nothing is stored. *)
Theorem calculateWage_needs_active_employee
    collate uid0 db0 formData uid now gen_random_uuid db :
  (∀ e, e ∈ employees db0 →
        Employee.id e = WagesPage.employee_id formData →
        Employee.status e ≠ Employee.active
        ∨ permitted employees_policies SELECT db0 uid0 e = false) →
  WagesPage.calculateWage (WagesPageData.loadEmployees collate uid0 db0)
    formData uid now gen_random_uuid db
  = (db, toast_error "Employee not found").
Proof.
  intros Hnone. rewrite calculateWage_cases.
  rewrite find_None_all; [done|].
  intros e He. unfold WagesPageData.loadEmployees in He.
  rewrite merge_sort_Permutation in He.
  apply select_employees_elem in He as (He & Hp & Hactive).
  apply bool_decide_eq_true in Hactive.
  apply bool_decide_eq_false. intros Hid.
  destruct (Hnone e He Hid) as [Hs|Hs]; congruence.
Qed.

Lemma calculateWage_needs_active_employee_witness :
  WagesPage.calculateWage
    (WagesPageData.loadEmployees String.leb (Some Sample.boss) Sample.db0)
    (WagesPage.mkForm "e9" 10 12 Wage.weekly) (Some Sample.boss) 7 "w3"
    Sample.db0
  = (Sample.db0, toast_error "Employee not found").
Proof.
  apply calculateWage_needs_active_employee.
  intros e He Hid. simpl in He, Hid.
  repeat (apply elem_of_cons in He as [->|He]; [discriminate|]).
  by apply elem_of_nil in He.
Defined.

(** X28.  What was recorded is listed: after the attendance page stored a
    record, [loadAttendance] for the day of the form, by the same user,
    lists that record. *)
Theorem recorded_attendance_is_listed formData uid now gen_random_uuid db db1 :
  AttendancePage.handleSubmit formData uid now gen_random_uuid db
  = (db1, toast_success "Attendance marked successfully") →
  new_attendance now gen_random_uuid (AttendancePage.attendanceData formData)
  ∈ (AttendancePageData.loadAttendance (AttendancePage.date formData) uid db1).*1.
Proof.
  intros Hsubmit.
  apply handleSubmit_success in Hsubmit as (_ & Hadmin & _ & _ & ->).
  unfold AttendancePageData.loadAttendance.
  rewrite <- list_fmap_compose.
  apply list_elem_of_fmap. eexists. split; [reflexivity|].
  rewrite merge_sort_Permutation. apply list_elem_of_filter. split.
  - apply Is_true_true, andb_true_iff. split.
    + rewrite permitted_attendance_SELECT.
      change (has_role (with_attendance db _) uid AppRole.admin)
        with (has_role db uid AppRole.admin).
      by rewrite Hadmin.
    + by apply bool_decide_eq_true.
  - simpl. apply elem_of_app. right. by constructor.
Qed.

Lemma recorded_attendance_is_listed_witness :
  Attendance.mk "a5" "e2" 11 Attendance.present (Some 0%Z) (Some 0%Z) None 8 8
  ∈ (AttendancePageData.loadAttendance 11 (Some Sample.boss)
       (with_attendance Sample.db0
          (attendance Sample.db0 ++
           [Attendance.mk "a5" "e2" 11 Attendance.present (Some 0%Z) (Some 0%Z)
              None 8 8]))).*1.
Proof.
  apply (recorded_attendance_is_listed
           (AttendancePage.mkForm "e2" 11 Attendance.present 0 0 "")
           (Some Sample.boss) 8 "a5" Sample.db0).
  reflexivity.
Defined.

(** ** Constraints the requests keep *)

Lemma elem_of_snoc {A} (l : list A) (x y : A) :
  y ∈ l ++ [x] ↔ y ∈ l ∨ y = x.
Proof. by rewrite elem_of_app, list_elem_of_singleton. Qed.

(** X31.  The references to employees hold after every request of the
    pages.  When every wage record and every attendance record belongs to
    an employee of the table, this is still so after [calculateWage] (the
    employees of the page may be out of date: a record for an employee
    that has left the table is refused), after [handleSubmit] of the
    attendance page, and after [handleDelete], which takes the records of
    the deleted employees along. *)
Theorem references_kept
    page_employees wform aform confirm employee_id uid now gen_random_uuid db :
  wages_reference_employees db →
  attendance_references_employees db →
  let db1 := (WagesPage.calculateWage page_employees wform uid now
                gen_random_uuid db).1 in
  let db2 := (AttendancePage.handleSubmit aform uid now gen_random_uuid db).1 in
  let db3 := (EmployeesPage.handleDelete confirm employee_id uid db).1 in
  (wages_reference_employees db1 ∧ attendance_references_employees db1)
  ∧ (wages_reference_employees db2 ∧ attendance_references_employees db2)
  ∧ (wages_reference_employees db3 ∧ attendance_references_employees db3).
Proof.
  intros Hw Ha db1 db2 db3. subst db1 db2 db3. split; [|split].
  - destruct (calculateWage_outcome page_employees wform uid now
                gen_random_uuid db) as [[msg ->]|(employee & _ & Hinsert & Hr)];
      [done|].
    apply insert_wages_inr in Hinsert as (_ & _ & _ & _ & He & _).
    apply employee_exists_spec in He. rewrite Hr. split; [|done].
    intros w Hin. cbn [fst wages with_wages] in Hin.
    apply elem_of_snoc in Hin as [Hin| ->]; [by apply Hw|]. exact He.
  - destruct (AttendancePage.handleSubmit aform uid now gen_random_uuid db)
      as [db2 [msg|msg]] eqn:Hrun.
    + destruct (handleSubmit_outcome aform uid now gen_random_uuid db)
        as [[msg' H]|H]; rewrite Hrun in H; by simplify_eq.
    + apply handleSubmit_success in Hrun as (_ & _ & _ & He & ->).
      apply employee_exists_spec in He. split; [done|].
      intros a Hin. cbn [fst attendance with_attendance] in Hin.
      apply elem_of_snoc in Hin as [Hin| ->]; [by apply Ha|]. exact He.
  - unfold EmployeesPage.handleDelete, delete_employees.
    destruct confirm; cbn [negb]; [|done]. cbv zeta. cbn [fst].
    set (target := employees_target DELETE uid
                     (λ e, bool_decide (Employee.id e = employee_id)) db).
    assert (∀ e, e ∈ employees db →
              Employee.id e ∉ Employee.id <$> filter (λ e, target e) (employees db) →
              e ∈ filter (λ e, negb (target e)) (employees db)) as Hstays.
    { intros e He Hid. apply list_elem_of_filter. split; [|done].
      destruct (target e) eqn:Ht; [|done]. exfalso. apply Hid.
      apply list_elem_of_fmap. exists e. split; [done|].
      apply list_elem_of_filter. split; [by rewrite Ht|done]. }
    split.
    + intros w Hin. cbn [wages employees] in *.
      apply list_elem_of_filter in Hin as [Hid Hin].
      destruct (Hw w Hin) as (e & He & Heq). exists e. split; [|done].
      apply Hstays; [done|]. by rewrite Heq.
    + intros a Hin. cbn [attendance employees] in *.
      apply list_elem_of_filter in Hin as [Hid Hin].
      destruct (Ha a Hin) as (e & He & Heq). exists e. split; [|done].
      apply Hstays; [done|]. by rewrite Heq.
Qed.

Lemma references_kept_witness :
  wages_reference_employees
    (EmployeesPage.handleDelete true "e1" (Some Sample.boss) Sample.db0).1
  ∧ attendance_references_employees
      (EmployeesPage.handleDelete true "e1" (Some Sample.boss) Sample.db0).1.
Proof.
  refine (proj2 (proj2 (references_kept [] (WagesPage.mkForm "e1" 10 12 Wage.weekly)
            (AttendancePage.mkForm "e2" 11 Attendance.present 0 0 "")
            true "e1" (Some Sample.boss) 9 "x" Sample.db0 _ _))).
  - intros w Hw. simpl in Hw.
    apply elem_of_cons in Hw as [->|Hw];
      [exists Sample.e1; split; [by constructor|done]|].
    apply elem_of_cons in Hw as [->|Hw];
      [exists Sample.e2; split; [by do 2 constructor|done]|].
    by apply elem_of_nil in Hw.
  - intros a Ha. simpl in Ha.
    repeat (apply elem_of_cons in Ha as [->|Ha];
            [first [exists Sample.e1; split; [by constructor|done]
                   |exists Sample.e2; split; [by do 2 constructor|done]]|]).
    by apply elem_of_nil in Ha.
Defined.

(** X32.  [handleSubmit] of the attendance page succeeds exactly when the
    overtime hours and the advance fit their columns, the caller has the
    admin role, the table has no record for the employee and date of the
    form, and the employee is in the table; in every other case it shows
    an error toast and leaves the database as it was. *)
Theorem attendance_handleSubmit_succeeds_iff formData uid now gen_random_uuid db :
  let r := AttendancePage.handleSubmit formData uid now gen_random_uuid db in
  (r.2 = toast_success "Attendance marked successfully" ↔
   attendance_fits formData
   ∧ has_role db uid AppRole.admin = true
   ∧ (∀ a, a ∈ attendance db →
           ¬ (Attendance.employee_id a = AttendancePage.employee_id formData
              ∧ Attendance.date a = AttendancePage.date formData))
   ∧ ∃ e, e ∈ employees db ∧ Employee.id e = AttendancePage.employee_id formData)
  ∧ (r.2 ≠ toast_success "Attendance marked successfully" →
     r.1 = db ∧ ∃ msg, r.2 = toast_error msg).
Proof.
  intros r. subst r. split.
  - rewrite handleSubmit_cases. cbv zeta.
    rewrite attendance_fits_spec, <- employee_exists_spec.
    set (new := new_attendance now gen_random_uuid
                  (AttendancePage.attendanceData formData)).
    assert ((∀ a, a ∈ attendance db →
                  ¬ (Attendance.employee_id a = AttendancePage.employee_id formData
                     ∧ Attendance.date a = AttendancePage.date formData))
            ↔ attendance_conflict new (attendance db) = false) as ->.
    { rewrite <- not_true_iff_false, attendance_conflict_spec. split.
      - intros Hnone (a & Ha & H1 & H2). by apply (Hnone a Ha).
      - intros Hnone a Ha [H1 H2]. apply Hnone. by exists a. }
    destruct (_ || _); cbn [snd]; [intuition congruence|].
    destruct (has_role db uid AppRole.admin); cbn [negb snd];
      [|intuition congruence].
    destruct (attendance_conflict new (attendance db)); cbn [snd];
      [intuition congruence|].
    destruct (employee_exists db (AttendancePage.employee_id formData));
      cbn [negb snd]; intuition congruence.
  - intros Hfail.
    destruct (handleSubmit_outcome formData uid now gen_random_uuid db)
      as [[msg ->]|Hr].
    + split; [done|]. by exists msg.
    + by rewrite Hr in Hfail.
Qed.

Lemma attendance_handleSubmit_succeeds_iff_witness :
  let r := AttendancePage.handleSubmit
             (AttendancePage.mkForm "e9" 11 Attendance.present 0 0 "")
             (Some Sample.boss) 8 "a5" Sample.db0 in
  r = (Sample.db0, toast_error "Error marking attendance")
  ∧ r.1 = Sample.db0 ∧ ∃ msg, r.2 = toast_error msg.
Proof.
  split; [reflexivity|].
  apply (proj2 (attendance_handleSubmit_succeeds_iff
                  (AttendancePage.mkForm "e9" 11 Attendance.present 0 0 "")
                  (Some Sample.boss) 8 "a5" Sample.db0)).
  vm_compute. discriminate.
Defined.

Lemma nearest_nonneg c m e : (0 ≤ c)%Z → (0 ≤ nearest c m e)%Z.
Proof.
  intros Hc. unfold nearest. destruct (0 <=? e)%Z eqn:He.
  - apply Z.leb_le in He. apply Z.mul_nonneg_nonneg; [lia|].
    by apply Z.pow_nonneg.
  - apply Z.leb_gt in He. apply Z.div_pos.
    + assert (0 ≤ 2 ^ (- e))%Z by (by apply Z.pow_nonneg). lia.
    + apply Z.pow_pos_nonneg; lia.
Qed.

(** A value a [DECIMAL(p, 2)] column takes is below [10 ^ (p - 2)] in
    size. *)
Lemma to_decimal_range precision x n :
  (0 ≤ precision)%Z →
  to_decimal precision x = numeric_value n →
  (- 10 ^ precision < n < 10 ^ precision)%Z.
Proof.
  intros Hp. assert (0 < 10 ^ precision)%Z as Hpos
    by (apply Z.pow_pos_nonneg; lia).
  unfold to_decimal.
  destruct (FloatOps.Prim2SF x) as [s|s| |s m e]; try discriminate.
  - intros [= <-]. lia.
  - destruct (10 ^ precision <? nearest 100 m e)%Z; [discriminate|].
    cbv zeta.
    set (hundredths := if (_ =? _)%float then _ else _).
    assert (0 ≤ hundredths)%Z as Hnonneg.
    { subst hundredths. destruct (_ =? _)%float.
      - apply Z.div_pos; [|lia].
        pose proof (nearest_nonneg 1000 m e). lia.
      - apply nearest_nonneg. lia. }
    destruct (10 ^ precision <=? hundredths)%Z eqn:Hle; [discriminate|].
    apply Z.leb_gt in Hle. intros [= <-]. destruct s; lia.
Qed.

Lemma nullable_range precision x n :
  (0 ≤ precision)%Z →
  nullable (to_decimal precision x) = Some n →
  (- 10 ^ precision < n < 10 ^ precision)%Z.
Proof.
  intros Hp Hn. apply (to_decimal_range precision x); [done|].
  destruct (to_decimal precision x); by simplify_eq/=.
Qed.

Lemma not_null_range precision x :
  (0 ≤ precision)%Z →
  (- 10 ^ precision < not_null (to_decimal precision x) < 10 ^ precision)%Z.
Proof.
  intros Hp. assert (0 < 10 ^ precision)%Z as Hpos
    by (apply Z.pow_pos_nonneg; lia).
  destruct (to_decimal precision x) as [|n|] eqn:Hx; cbn [not_null]; [lia| |lia].
  by apply (to_decimal_range precision x).
Qed.

(** X33.  What the pages store is within the range of its column: the
    four amounts of a wage record [calculateWage] appends are below
    100000000.00 in size, and so is the advance of an attendance record
    [handleSubmit] appends, whose overtime hours are below 1000.00. *)
Theorem stored_amounts_in_range
    page_employees wform aform uid now gen_random_uuid db db1 db2 :
  WagesPage.calculateWage page_employees wform uid now gen_random_uuid db
  = (db1, toast_success "Wage calculated successfully") →
  AttendancePage.handleSubmit aform uid now gen_random_uuid db
  = (db2, toast_success "Attendance marked successfully") →
  (∃ w, wages db1 = wages db ++ [w]
        ∧ (- 10 ^ 10 < Wage.base_wage w < 10 ^ 10)%Z
        ∧ (- 10 ^ 10 < Wage.total_wage w < 10 ^ 10)%Z
        ∧ (∀ n, Wage.overtime_amount w = Some n → (- 10 ^ 10 < n < 10 ^ 10)%Z)
        ∧ (∀ n, Wage.advance_deductions w = Some n → (- 10 ^ 10 < n < 10 ^ 10)%Z))
  ∧ (∃ a, attendance db2 = attendance db ++ [a]
          ∧ (∀ n, Attendance.overtime_hours a = Some n → (- 10 ^ 5 < n < 10 ^ 5)%Z)
          ∧ (∀ n, Attendance.advance_taken a = Some n → (- 10 ^ 10 < n < 10 ^ 10)%Z)).
Proof.
  intros Hwage Hatt. split.
  - destruct (calculateWage_outcome page_employees wform uid now
                gen_random_uuid db) as [[msg H]|(employee & _ & _ & H)];
      rewrite Hwage in H; [done|].
    injection H as ->. eexists. split; [reflexivity|].
    cbn [new_wage Wage.base_wage Wage.total_wage Wage.overtime_amount
         Wage.advance_deductions].
    split; [by apply not_null_range|]. split; [by apply not_null_range|].
    split; intros n Hn; by apply nullable_range in Hn.
  - apply handleSubmit_success in Hatt as (_ & _ & _ & _ & ->).
    eexists. split; [reflexivity|].
    cbn [new_attendance Attendance.overtime_hours Attendance.advance_taken].
    split; intros n Hn; by apply nullable_range in Hn.
Qed.

Lemma stored_amounts_in_range_witness :
  ∃ w, wages
         (WagesPage.calculateWage [Sample.e1; Sample.e2]
            (WagesPage.mkForm "e1" 10 12 Wage.weekly) (Some Sample.boss) 7 "w3"
            Sample.db0).1
       = wages Sample.db0 ++ [w]
       ∧ (- 10 ^ 10 < Wage.base_wage w < 10 ^ 10)%Z.
Proof.
  destruct (stored_amounts_in_range [Sample.e1; Sample.e2]
              (WagesPage.mkForm "e1" 10 12 Wage.weekly)
              (AttendancePage.mkForm "e2" 11 Attendance.present 0 0 "")
              (Some Sample.boss) 7 "w3" Sample.db0
              (WagesPage.calculateWage [Sample.e1; Sample.e2]
                 (WagesPage.mkForm "e1" 10 12 Wage.weekly) (Some Sample.boss)
                 7 "w3" Sample.db0).1
              (AttendancePage.handleSubmit
                 (AttendancePage.mkForm "e2" 11 Attendance.present 0 0 "")
                 (Some Sample.boss) 7 "w3" Sample.db0).1)
    as [(w & Hw & Hbase & _) _]; [reflexivity|reflexivity|].
  exists w. by split.
Defined.

(** ** Paid and pending records *)

(** X34.  Paid and pending split the records: every wage record handed
    to [calculateStats] is counted in exactly one of its two totals, the
    paid ones in [totalPaid] and the others in [totalPending]. *)
Theorem paid_and_pending_split_the_records (l : list Wage.row) :
  let paid := filter (λ w, Wage.paid w) l in
  let pending := filter (λ w, negb (Wage.paid w)) l in
  paid ++ pending ≡ₚ l
  ∧ length paid + length pending = length l
  ∧ (∀ w, w ∈ paid → w ∉ pending)
  ∧ ReportsPage.totalPaid (ReportsPage.calculateStats l)
    = sum_in_order (λ w, to_number (Wage.total_wage w)) paid
  ∧ ReportsPage.totalPending (ReportsPage.calculateStats l)
    = sum_in_order (λ w, to_number (Wage.total_wage w)) pending.
Proof.
  intros paid pending.
  assert (paid ++ pending ≡ₚ l) as Hsplit.
  { subst paid pending. induction l as [|w l IH]; [done|].
    rewrite !filter_cons. destruct (Wage.paid w) eqn:Hp; cbn [negb];
      rewrite ?(decide_True (P := Is_true true)) by exact I;
      rewrite ?(decide_False (P := Is_true false)) by exact id.
    - by rewrite <- IH at 3.
    - rewrite <- Permutation_middle. by rewrite IH. }
  split; [done|]. split; [|split; [|done]].
  - by rewrite <- length_app, Hsplit.
  - intros w Hw Hw'. subst paid pending.
    apply list_elem_of_filter in Hw as [Hw _].
    apply list_elem_of_filter in Hw' as [Hw' _].
    by destruct (Wage.paid w).
Qed.

(** Marking leaves the records with another id alone. *)
Lemma mark_other (mark : Wage.row → Wage.row) id (l : list Wage.row) :
  id ∉ Wage.id <$> l →
  (λ x, if bool_decide (Wage.id x = id) then mark x else x) <$> l = l.
Proof.
  intros Hid. rewrite <- (list_fmap_id l) at 2.
  apply list_fmap_ext. intros i x Hx. rewrite bool_decide_false; [done|].
  intros Heq. apply Hid. rewrite <- Heq.
  apply list_elem_of_fmap_2. by apply list_elem_of_lookup_2 with i.
Qed.

Lemma mark_moves (mark : Wage.row → Wage.row) w (l : list Wage.row) :
  (∀ x, Wage.paid (mark x) = true) →
  NoDup (Wage.id <$> l) →
  w ∈ l →
  Wage.paid w = false →
  let marked :=
    (λ x, if bool_decide (Wage.id x = Wage.id w) then mark x else x) <$> l in
  filter (λ x, Wage.paid x) marked ≡ₚ mark w :: filter (λ x, Wage.paid x) l
  ∧ filter (λ x, negb (Wage.paid x)) l
    ≡ₚ w :: filter (λ x, negb (Wage.paid x)) marked.
Proof.
  intros Hmark Hnd Hw Hunpaid. cbv zeta.
  induction l as [|x l IH]; [by apply elem_of_nil in Hw|].
  rewrite fmap_cons in Hnd. apply NoDup_cons in Hnd as [Hx Hnd].
  rewrite fmap_cons. apply elem_of_cons in Hw as [<-|Hw].
  - rewrite bool_decide_true by done. rewrite mark_other by done.
    rewrite !filter_cons, Hmark, Hunpaid. cbn [negb].
    rewrite ?(decide_True (P := Is_true true)) by exact I.
    rewrite ?(decide_False (P := Is_true false)) by exact id.
    done.
  - destruct (IH Hnd Hw) as [IHpaid IHpending].
    rewrite bool_decide_false.
    2:{ intros Heq. apply Hx. rewrite Heq. by apply list_elem_of_fmap_2. }
    rewrite !(filter_cons _ x).
    destruct (Wage.paid x) eqn:Hp; cbn [negb];
      rewrite ?(decide_True (P := Is_true true)) by exact I;
      rewrite ?(decide_False (P := Is_true false)) by exact id.
    + split; [|done]. rewrite IHpaid. apply Permutation_swap.
    + split; [done|]. rewrite IHpending. apply Permutation_swap.
Qed.

(** X35.  Marking a record paid moves it from the pending records to the
    paid ones.  When the ids of the wage records are distinct and an
    administrator marks an unpaid record as paid, the paid records of the
    report are those of before and the marked record, the pending records
    are those of before without it, and the marked record has the total it
    had; so the next report adds that total to the paid side and no longer
    to the pending side. *)
Theorem markAsPaid_moves_record_to_paid id uid new_Date now db w :
  has_role db uid AppRole.admin = true →
  NoDup (Wage.id <$> wages db) →
  w ∈ wages db →
  Wage.id w = id →
  Wage.paid w = false →
  let wages' := wages (WagesPage.markAsPaid id uid new_Date now db).1 in
  ∃ w',
    Wage.id w' = id
    ∧ Wage.paid w' = true
    ∧ Wage.paid_at w' = Some new_Date
    ∧ Wage.total_wage w' = Wage.total_wage w
    ∧ Wage.employee_id w' = Wage.employee_id w
    ∧ filter (λ x, Wage.paid x) wages' ≡ₚ w' :: filter (λ x, Wage.paid x) (wages db)
    ∧ filter (λ x, negb (Wage.paid x)) (wages db)
      ≡ₚ w :: filter (λ x, negb (Wage.paid x)) wages'.
Proof.
  intros Hadmin Hnd Hw Hid Hunpaid wages'. subst wages'.
  exists (update_updated_at_column now (WagesPage.set_paid new_Date w)).
  do 5 (split; [done|]).
  rewrite markAsPaid_cases, Hadmin. cbn [fst wages with_wages andb].
  subst id.
  by apply (mark_moves
              (λ x, update_updated_at_column now (WagesPage.set_paid new_Date x))).
Qed.

Lemma markAsPaid_moves_record_to_paid_witness :
  ∃ w',
    Wage.total_wage w' = Wage.total_wage Sample.w1
    ∧ filter (λ x, Wage.paid x)
        (wages (WagesPage.markAsPaid "w1" (Some Sample.boss) 20 21 Sample.db0).1)
      ≡ₚ w' :: filter (λ x, Wage.paid x) (wages Sample.db0).
Proof.
  destruct (markAsPaid_moves_record_to_paid "w1" (Some Sample.boss) 20 21
              Sample.db0 Sample.w1)
    as (w' & _ & _ & _ & Htotal & _ & Hpaid & _).
  - reflexivity.
  - compute_done.
  - by constructor.
  - reflexivity.
  - reflexivity.
  - exists w'. by split.
Defined.

(** ** What the columns hold *)

(** X36.  An attendance record saved with both number inputs empty holds
    [NULL] in both columns: [parseFloat] of the empty input is [NaN],
    which the request carries as [null].  The loop of [calculateWage]
    takes such a record for its status only: it adds no overtime and no
    advance for it. *)
Theorem empty_inputs_are_stored_as_null formData uid now gen_random_uuid db db1 :
  AttendancePage.overtime_hours formData = nan →
  AttendancePage.advance_taken formData = nan →
  AttendancePage.handleSubmit formData uid now gen_random_uuid db
  = (db1, toast_success "Attendance marked successfully") →
  ∃ a,
    attendance db1 = attendance db ++ [a]
    ∧ Attendance.overtime_hours a = None
    ∧ Attendance.advance_taken a = None
    ∧ ∀ employee acc,
        WagesPage.overtimeAmount (WagesPage.forEach_body employee acc a)
        = WagesPage.overtimeAmount acc
        ∧ WagesPage.advanceDeductions (WagesPage.forEach_body employee acc a)
          = WagesPage.advanceDeductions acc.
Proof.
  intros Hhours Hadvance Hsubmit.
  apply handleSubmit_success in Hsubmit as (_ & _ & _ & _ & ->).
  exists (new_attendance now gen_random_uuid (AttendancePage.attendanceData formData)).
  split; [done|].
  unfold new_attendance, AttendancePage.attendanceData, WagesPage.forEach_body.
  cbn [Attendance.overtime_hours Attendance.advance_taken
       AttendanceInsert.overtime_hours AttendanceInsert.advance_taken
       WagesPage.overtimeAmount WagesPage.advanceDeductions].
  rewrite Hhours, Hadvance.
  change (to_decimal 5 nan) with numeric_null.
  change (to_decimal 10 nan) with numeric_null.
  done.
Qed.

Lemma empty_inputs_are_stored_as_null_witness :
  ∃ a,
    attendance
      (AttendancePage.handleSubmit
         (AttendancePage.mkForm "e2" 11 Attendance.present nan nan "")
         (Some Sample.boss) 8 "a5" Sample.db0).1
    = attendance Sample.db0 ++ [a]
    ∧ Attendance.overtime_hours a = None
    ∧ Attendance.advance_taken a = None.
Proof.
  destruct (empty_inputs_are_stored_as_null
              (AttendancePage.mkForm "e2" 11 Attendance.present nan nan "")
              (Some Sample.boss) 8 "a5" Sample.db0
              (AttendancePage.handleSubmit
                 (AttendancePage.mkForm "e2" 11 Attendance.present nan nan "")
                 (Some Sample.boss) 8 "a5" Sample.db0).1)
    as (a & Ha & Hhours & Hadvance & _); [reflexivity..|].
  by exists a.
Defined.

(** X37.  A stored wage record holds each amount as its own column
    rounds it.  When [calculateWage] succeeds, the record appended has the
    base wage, the overtime amount and the advance deductions of the loop,
    each brought to [DECIMAL(10, 2)] by itself, and its total is the double
    [baseWage + overtimeAmount - advanceDeductions] brought to
    [DECIMAL(10, 2)], whatever its sign: nothing clamps a negative total,
    and nothing recomputes the total from the rounded amounts. *)
Theorem stored_wage_is_rounded_by_column
    page_employees formData uid now gen_random_uuid db db1 :
  WagesPage.calculateWage page_employees formData uid now gen_random_uuid db
  = (db1, toast_success "Wage calculated successfully") →
  ∃ employee w,
    find (λ e, bool_decide (Employee.id e = WagesPage.employee_id formData))
      page_employees = Some employee
    ∧ wages db1 = wages db ++ [w]
    ∧ let t := WagesPage.accumulate employee (fetched formData uid db) in
      to_decimal 10 (WagesPage.baseWage t) = numeric_value (Wage.base_wage w)
      ∧ Wage.overtime_amount w
        = nullable (to_decimal 10 (WagesPage.overtimeAmount t))
      ∧ Wage.advance_deductions w
        = nullable (to_decimal 10 (WagesPage.advanceDeductions t))
      ∧ to_decimal 10
          (WagesPage.baseWage t + WagesPage.overtimeAmount t
           - WagesPage.advanceDeductions t)%float
        = numeric_value (Wage.total_wage w).
Proof.
  intros Hrun.
  destruct (calculateWage_outcome page_employees formData uid now
              gen_random_uuid db) as [[msg H]|(employee & Hfind & Hinsert & H)];
    rewrite Hrun in H; [done|].
  injection H as ->. cbn [fst] in Hinsert.
  apply insert_wages_inr in Hinsert as ((Hb & _ & _ & Ht) & _ & Hnb & Hnt & _).
  exists employee. eexists. split; [done|]. split; [reflexivity|].
  cbv zeta. cbn [new_wage Wage.base_wage Wage.overtime_amount
                 Wage.advance_deductions Wage.total_wage].
  split; [by apply to_decimal_stored|]. split; [done|]. split; [done|].
  by apply to_decimal_stored.
Qed.

Lemma stored_wage_is_rounded_by_column_witness :
  ∃ w,
    wages
      (WagesPage.calculateWage [Sample.e1; Sample.e2; Sample.e3]
         (WagesPage.mkForm "e3" 10 12 Wage.weekly) (Some Sample.boss) 7 "w3"
         Sample.db1).1
    = wages Sample.db1 ++ [w]
    ∧ Wage.overtime_amount w = Some 1667%Z
    ∧ Wage.total_wage w = (-8334)%Z.
Proof.
  destruct (stored_wage_is_rounded_by_column [Sample.e1; Sample.e2; Sample.e3]
              (WagesPage.mkForm "e3" 10 12 Wage.weekly) (Some Sample.boss) 7 "w3"
              Sample.db1
              (WagesPage.calculateWage [Sample.e1; Sample.e2; Sample.e3]
                 (WagesPage.mkForm "e3" 10 12 Wage.weekly) (Some Sample.boss)
                 7 "w3" Sample.db1).1)
    as (employee & w & Hfind & Hw & Hbase & Hover & Hadv & Htotal);
    [reflexivity|].
  exists w. split; [exact Hw|].
  injection Hfind as <-. split.
  - rewrite Hover. reflexivity.
  - assert (numeric_value (Wage.total_wage w) = numeric_value (-8334)) as Heq
      by (rewrite <- Htotal; reflexivity).
    by injection Heq.
Defined.

